(** * RESTful Top2Vec: the request handlers of [restful-top2vec/main.py]

    The program is a FastAPI application that answers seven routes by
    delegating to one process-wide [Top2Vec] model object.  The model is a
    third-party library: it is taken here as an interface ([Top2Vec.Model]),
    its methods threading the model's state explicitly and either returning
    or raising.  A handler runs in the [App] monad over a [world]: the model
    handle, the trace of model method calls made so far, and the allocator of
    Python object identities.  What a handler returns is rendered as JSON
    inside the route, so that a [ValueError] raised by the rendering reaches
    [value_error_handler] like one raised by the model. *)

From Stdlib Require Import ZArith String List Lia.
From Corelib Require Import PrimFloat.
From stdpp Require Import base option list gmap strings.

Local Open Scope Z_scope.

(** ** Python values *)

(** A Python [float]; the handlers only move scores around. *)
Definition float : Type := PrimFloat.float.

(** An exception instance: a [ValueError] (or a subclass of it), or any other
    exception class.  Both carry [str(exc)]. *)
Inductive exception : Type :=
| ValueError (text : string)
| OtherError (class_name : string) (text : string).

Definition str (exc : exception) : string :=
  match exc with
  | ValueError text => text
  | OtherError _ text => text
  end.

Definition is_ValueError (exc : exception) : bool :=
  match exc with
  | ValueError _ => true
  | OtherError _ _ => false
  end.

(** What evaluating a call gives: a value, or a raised exception. *)
Inductive outcome (A : Type) : Type :=
| Return (a : A)
| Raise (exc : exception).
Arguments Return {A} a.
Arguments Raise {A} exc.

Definition outcome_map {A B : Type} (f : A -> B) (r : outcome A) : outcome B :=
  match r with
  | Return a => Return (f a)
  | Raise exc => Raise exc
  end.

(** Python's [zip] of three and of four sequences: it stops at the shortest.
    (For two sequences it is stdpp's [zip].) *)
Fixpoint zip3 {A B C : Type} (xs : list A) (ys : list B) (zs : list C)
  : list (A * B * C) :=
  match xs, ys, zs with
  | x :: xs', y :: ys', z :: zs' => (x, y, z) :: zip3 xs' ys' zs'
  | _, _, _ => []
  end.

Fixpoint zip4 {A B C D : Type}
  (xs : list A) (ys : list B) (zs : list C) (us : list D)
  : list (A * B * C * D) :=
  match xs, ys, zs, us with
  | x :: xs', y :: ys', z :: zs', u :: us' => (x, y, z, u) :: zip4 xs' ys' zs' us'
  | _, _, _, _ => []
  end.

(** ** The wrapped model *)

Module Top2Vec.

(** The methods of the [Top2Vec] class that [main.py] calls, with the
    arguments it passes them positionally; [state] is [self]. *)
Class Model : Type := {
  state : Type;
  load : string -> outcome state;
  get_num_topics : state -> outcome Z * state;
  get_topics :
    Z -> state ->
    outcome (list (list string) * list (list float) * list Z) * state;
  search_topics :
    list string -> Z -> list string -> state ->
    outcome (list (list string) * list (list float) * list float * list Z) * state;
  search_documents_by_topic :
    Z -> Z -> state -> outcome (list string * list float * list Z) * state;
  search_documents_by_keyword :
    list string -> Z -> list string -> state ->
    outcome (list string * list float * list Z) * state;
  search_documents_by_document :
    Z -> Z -> state -> outcome (list string * list float * list Z) * state;
  similar_words :
    list string -> Z -> list string -> state ->
    outcome (list string * list float) * state;
}.

(** A model whose query methods leave [self] as it was. *)
Record read_only (T : Model) : Prop := {
  get_num_topics_ro : forall m, snd (get_num_topics m) = m;
  get_topics_ro : forall n m, snd (get_topics n m) = m;
  search_topics_ro : forall kw n neg m, snd (search_topics kw n neg m) = m;
  search_documents_by_topic_ro :
    forall t n m, snd (search_documents_by_topic t n m) = m;
  search_documents_by_keyword_ro :
    forall kw n neg m, snd (search_documents_by_keyword kw n neg m) = m;
  search_documents_by_document_ro :
    forall d n m, snd (search_documents_by_document d n m) = m;
  similar_words_ro : forall kw n neg m, snd (similar_words kw n neg m) = m;
}.

End Top2Vec.

(** A call of one of the model's query methods with its arguments, and what
    such a call gave back.  The trace of a process records the load of the
    model and every method call with its outcome. *)
Inductive method_call : Type :=
| GetNumTopics
| GetTopics (num_topics : Z)
| SearchTopics (keywords : list string) (num_topics : Z) (keywords_neg : list string)
| SearchDocumentsByTopic (topic_num num_docs : Z)
| SearchDocumentsByKeyword (keywords : list string) (num_docs : Z) (keywords_neg : list string)
| SearchDocumentsByDocument (doc_num num_docs : Z)
| SimilarWords (keywords : list string) (num_words : Z) (keywords_neg : list string).

Inductive returned : Type :=
| RNumTopics (n : Z)
| RTopics (r : list (list string) * list (list float) * list Z)
| RTopicScores (r : list (list string) * list (list float) * list float * list Z)
| RDocuments (r : list string * list float * list Z)
| RWords (r : list string * list float).

Inductive event : Type :=
| Loaded (path : string)
| Called (c : method_call) (r : outcome returned).

Definition is_load (ev : event) : bool :=
  match ev with
  | Loaded _ => true
  | Called _ _ => false
  end.

(** ** Schemas (the pydantic classes) *)

Record NumTopics : Type := { NumTopics_num_topics : Z }.

Record Topic : Type := {
  topic_num : Z;
  topic_words : list string;
  word_scores : list float;
}.

(** [class TopicResult(Topic)]: the fields of [Topic], then its own. *)
Record TopicResult : Type := {
  topic : Topic;
  topic_score : float;
}.

Record Document : Type := {
  content : string;
  score : float;
  doc_num : Z;
}.

Record KeywordSearch : Type := {
  keywords : list string;
  keywords_neg : list string;
}.

Record KeywordSearchDocument : Type := {
  KeywordSearchDocument_base : KeywordSearch;
  num_docs : Z;
}.

Record KeywordSearchTopic : Type := {
  KeywordSearchTopic_base : KeywordSearch;
  num_topics : Z;
}.

Record KeywordSearchWord : Type := {
  KeywordSearchWord_base : KeywordSearch;
  num_words : Z;
}.

Record WordResult : Type := {
  word : string;
  word_score : float;
}.

(** A Python object: its identity and its value. *)
Record obj (A : Type) : Type := {
  obj_id : nat;
  obj_val : A;
}.
Arguments obj_id {A} o.
Arguments obj_val {A} o.

(** The objects holding [vs], allocated one after the other from [start]. *)
Fixpoint objects {A : Type} (start : nat) (vs : list A) : list (obj A) :=
  match vs with
  | [] => []
  | v :: vs' => {| obj_id := start; obj_val := v |} :: objects (S start) vs'
  end.

Section Application.

Context {T : Top2Vec.Model}.

(** ** The process state and the handler monad *)

Record world : Type := {
  top2vec : Top2Vec.state;
  calls : list event;
  next_obj : nat;
}.

Definition App (A : Type) : Type := world -> outcome A * world.

Definition ret {A : Type} (a : A) : App A := fun w => (Return a, w).

(** Sequencing: a raised exception propagates, the rest is skipped. *)
Definition bind {A B : Type} (k : A -> App B) (c : App A) : App B :=
  fun w =>
    match c w with
    | (Return a, w') => k a w'
    | (Raise exc, w') => (Raise exc, w')
    end.

#[global] Instance App_ret : MRet App := @ret.
#[global] Instance App_bind : MBind App := @bind.

(** [top2vec.method(args)]: the method runs on the handle, the handle is
    left as the method leaves it, and the call enters the trace. *)
Definition call {A : Type} (c : method_call) (tag : A -> returned)
  (method : Top2Vec.state -> outcome A * Top2Vec.state) : App A :=
  fun w =>
    let (r, m') := method (top2vec w) in
    (r, {| top2vec := m';
           calls := calls w ++ [Called c (outcome_map tag r)];
           next_obj := next_obj w |}).

(** Constructing an object gives it the next identity. *)
Definition new {A : Type} (v : A) : App (obj A) :=
  fun w =>
    (Return {| obj_id := next_obj w; obj_val := v |},
     {| top2vec := top2vec w; calls := calls w; next_obj := S (next_obj w) |}).

End Application.

Section Handlers.

Context {T : Top2Vec.Model}.

(** [for x in xs: body], the loop's variables threaded through as [s]. *)
Fixpoint for_ {X S : Type} (xs : list X) (body : X -> S -> App S) (s : S) : App S :=
  match xs with
  | [] => ret s
  | x :: xs' => s' ← body x s; for_ xs' body s'
  end.

(** ** The route handlers *)

Definition get_number_of_topics : App (obj NumTopics) :=
  n ← call GetNumTopics RNumTopics Top2Vec.get_num_topics;
  new {| NumTopics_num_topics := n |}.

Definition get_topics (num_topics : Z) : App (list (obj Topic)) :=
  '(topic_words, word_scores, topic_nums) ←
    call (GetTopics num_topics) RTopics (Top2Vec.get_topics num_topics);
  let topics := [] in
  for_ (zip3 topic_words word_scores topic_nums)
    (fun '(words, scores, num) topics =>
       t ← new {| topic_num := num; topic_words := words; word_scores := scores |};
       ret (topics ++ [t]))
    topics.

Definition search_topics_by_keywords (keyword_search : KeywordSearchTopic)
  : App (list (obj TopicResult)) :=
  let ks := KeywordSearchTopic_base keyword_search in
  '(topic_words, word_scores, topic_scores, topic_nums) ←
    call (SearchTopics (keywords ks) (num_topics keyword_search) (keywords_neg ks))
      RTopicScores
      (Top2Vec.search_topics (keywords ks) (num_topics keyword_search) (keywords_neg ks));
  let topic_results := [] in
  for_ (zip4 topic_words word_scores topic_scores topic_nums)
    (fun '(words, word_scores, topic_score, topic_num) topic_results =>
       t ← new {| topic := {| topic_num := topic_num; topic_words := words;
                               word_scores := word_scores |};
                   topic_score := topic_score |};
       ret (topic_results ++ [t]))
    topic_results.

Definition search_documents_by_topic (topic_num num_docs : Z)
  : App (list (obj Document)) :=
  '(docs, doc_scores, doc_nums) ←
    call (SearchDocumentsByTopic topic_num num_docs) RDocuments
      (Top2Vec.search_documents_by_topic topic_num num_docs);
  let documents := [] in
  for_ (zip3 docs doc_scores doc_nums)
    (fun '(doc, score, num) documents =>
       d ← new {| content := doc; score := score; doc_num := num |};
       ret (documents ++ [d]))
    documents.

Definition search_documents_by_keywords (keyword_search : KeywordSearchDocument)
  : App (list (obj Document)) :=
  let ks := KeywordSearchDocument_base keyword_search in
  '(docs, doc_scores, doc_nums) ←
    call (SearchDocumentsByKeyword (keywords ks) (num_docs keyword_search) (keywords_neg ks))
      RDocuments
      (Top2Vec.search_documents_by_keyword
         (keywords ks) (num_docs keyword_search) (keywords_neg ks));
  let documents := [] in
  for_ (zip3 docs doc_scores doc_nums)
    (fun '(doc, score, num) documents =>
       d ← new {| content := doc; score := score; doc_num := num |};
       ret (documents ++ [d]))
    documents.

Definition search_documents_by_document (doc_num num_docs : Z)
  : App (list (obj Document)) :=
  '(docs, doc_scores, doc_nums) ←
    call (SearchDocumentsByDocument doc_num num_docs) RDocuments
      (Top2Vec.search_documents_by_document doc_num num_docs);
  let documents := [] in
  for_ (zip3 docs doc_scores doc_nums)
    (fun '(doc, score, num) documents =>
       d ← new {| content := doc; score := score; doc_num := num |};
       ret (documents ++ [d]))
    documents.

Definition find_similar_words (keyword_search : KeywordSearchWord)
  : App (list (obj WordResult)) :=
  let ks := KeywordSearchWord_base keyword_search in
  '(words, word_scores) ←
    call (SimilarWords (keywords ks) (num_words keyword_search) (keywords_neg ks))
      RWords
      (Top2Vec.similar_words (keywords ks) (num_words keyword_search) (keywords_neg ks));
  let word_results := [] in
  for_ (zip words word_scores)
    (fun '(word, score) word_results =>
       r ← new {| word := word; word_score := score |};
       ret (word_results ++ [r]))
    word_results.

End Handlers.

(** ** Requests, responses and schema validation *)

#[local] Set Warnings "-register-all".

Inductive json : Type :=
| JNull
| JBool (b : bool)
| JInt (n : Z)
| JFloat (f : float)
| JString (s : string)
| JArray (items : list json)
| JObject (fields : list (string * json)).

(** A request as the framework hands it over: the query string's parameters
    and, when the body is a JSON object, its members. *)
Record Request : Type := {
  query_params : gmap string string;
  json_body : option (gmap string json);
}.

(** What the framework brings and [main.py] does not spell out: the coercion
    of one value to a field's declared type, for the two field types the
    request schemas declare ([int] and [List[str]]), and the text of the
    [ValueError] that [json.dumps(..., allow_nan=False)] raises on a float
    that JSON cannot hold. *)
Class Pydantic : Type := {
  int_validator : json -> option Z;
  list_str_validator : json -> option (list string);
  out_of_range_float : float -> string;
}.

(** A field declared without a default: absent, the object is rejected. *)
Definition required {A : Type} (values : gmap string json) (name : string)
  (validator : json -> option A) : option A :=
  v ← values !! name; validator v.

Section Schemas.

Context {P : Pydantic}.

Definition KeywordSearch_validate (values : gmap string json) : option KeywordSearch :=
  keywords ← required values "keywords" list_str_validator;
  keywords_neg ← required values "keywords_neg" list_str_validator;
  Some {| keywords := keywords; keywords_neg := keywords_neg |}.

Definition KeywordSearchDocument_validate (values : gmap string json)
  : option KeywordSearchDocument :=
  base ← KeywordSearch_validate values;
  num_docs ← required values "num_docs" int_validator;
  Some {| KeywordSearchDocument_base := base; num_docs := num_docs |}.

Definition KeywordSearchTopic_validate (values : gmap string json)
  : option KeywordSearchTopic :=
  base ← KeywordSearch_validate values;
  num_topics ← required values "num_topics" int_validator;
  Some {| KeywordSearchTopic_base := base; num_topics := num_topics |}.

Definition KeywordSearchWord_validate (values : gmap string json)
  : option KeywordSearchWord :=
  base ← KeywordSearch_validate values;
  num_words ← required values "num_words" int_validator;
  Some {| KeywordSearchWord_base := base; num_words := num_words |}.

(** A handler parameter of a plain type is a required query parameter. *)
Definition query_int (request : Request) (name : string) : option Z :=
  s ← query_params request !! name; int_validator (JString s).

(** A handler parameter of a schema type is the request's JSON body. *)
Definition body_param {A : Type} (request : Request)
  (validate : gmap string json -> option A) : option A :=
  values ← json_body request; validate values.

End Schemas.

(** What a response carries: a value of a route's [response_model], the
    [{"message": ...}] object, or the body of one of the framework's own
    error responses. *)
Inductive payload : Type :=
| NumTopicsJSON (v : NumTopics)
| TopicsJSON (l : list Topic)
| TopicResultsJSON (l : list TopicResult)
| DocumentsJSON (l : list Document)
| WordResultsJSON (l : list WordResult)
| MessageJSON (message : string)
| FrameworkJSON.

Record Response : Type := JSONResponse {
  status_code : Z;
  body : payload;
}.

(** FastAPI's defaults: a returned value, once rendered, is sent with 200, a
    request that fails validation with 422, an exception nobody handles with
    500. *)
Definition HTTP_200_OK : Z := 200.
Definition HTTP_422_UNPROCESSABLE_ENTITY : Z := 422.
Definition HTTP_500_INTERNAL_SERVER_ERROR : Z := 500.

Definition request_validation_error : Response :=
  JSONResponse HTTP_422_UNPROCESSABLE_ENTITY FrameworkJSON.

Definition internal_server_error : Response :=
  JSONResponse HTTP_500_INTERNAL_SERVER_ERROR FrameworkJSON.

(** [@app.exception_handler(ValueError)] *)
Definition value_error_handler (request : Request) (exc : exception) : Response :=
  JSONResponse 404 (MessageJSON (str exc)).

(** The handler registered for the exception's class, if any. *)
Definition exception_response (request : Request) (exc : exception) : Response :=
  if is_ValueError exc then value_error_handler request exc
  else internal_server_error.

(** What a handler returns, by route. *)
Inductive result : Type :=
| NumTopicsResult (o : obj NumTopics)
| TopicsResult (l : list (obj Topic))
| TopicResultsResult (l : list (obj TopicResult))
| DocumentsResult (l : list (obj Document))
| WordResultsResult (l : list (obj WordResult)).

(** Serialization through the route's [response_model]. *)
Definition serialize (r : result) : payload :=
  match r with
  | NumTopicsResult o => NumTopicsJSON (obj_val o)
  | TopicsResult l => TopicsJSON (map obj_val l)
  | TopicResultsResult l => TopicResultsJSON (map obj_val l)
  | DocumentsResult l => DocumentsJSON (map obj_val l)
  | WordResultsResult l => WordResultsJSON (map obj_val l)
  end.

(** The identities of the objects a handler returned. *)
Definition object_ids (r : result) : list nat :=
  match r with
  | NumTopicsResult o => [obj_id o]
  | TopicsResult l => map obj_id l
  | TopicResultsResult l => map obj_id l
  | DocumentsResult l => map obj_id l
  | WordResultsResult l => map obj_id l
  end.

(** The floats of a payload, in the order in which rendering meets them:
    entry by entry, and within an entry field by field as the schema declares
    them ([topic_score] after the fields inherited from [Topic]). *)
Definition floats_of (p : payload) : list float :=
  match p with
  | TopicsJSON l => flat_map word_scores l
  | TopicResultsJSON l =>
      flat_map (fun r => word_scores (topic r) ++ [topic_score r]) l
  | DocumentsJSON l => map score l
  | WordResultsJSON l => map word_score l
  | NumTopicsJSON _ | MessageJSON _ | FrameworkJSON => []
  end.

(** A float that JSON cannot hold: NaN, or an infinity. *)
Definition out_of_range (f : float) : bool := negb (PrimFloat.is_finite f).

(** ** Routes *)

Inductive endpoint : Type :=
| topics_number
| topics_get_topics
| topics_search
| documents_search_by_topic
| documents_search_by_keyword
| documents_search_by_document
| words_find_similar.

Definition http_method (ep : endpoint) : string :=
  match ep with
  | topics_number | topics_get_topics | documents_search_by_topic => "GET"
  | topics_search | documents_search_by_keyword
  | documents_search_by_document | words_find_similar => "POST"
  end.

Definition path (ep : endpoint) : string :=
  match ep with
  | topics_number => "/topics/number"
  | topics_get_topics => "/topics/get-topics"
  | topics_search => "/topics/search"
  | documents_search_by_topic => "/documents/search-by-topic"
  | documents_search_by_keyword => "/documents/search-by-keyword"
  | documents_search_by_document => "/documents/search-by-document"
  | words_find_similar => "/words/find-similar"
  end.

(** The routes whose body is of the [KeywordSearch] family. *)
Definition takes_keyword_search (ep : endpoint) : bool :=
  match ep with
  | topics_search | documents_search_by_keyword | words_find_similar => true
  | _ => false
  end.

Section Server.

Context {P : Pydantic} {T : Top2Vec.Model}.

(** The route's handler applied to its validated parameters; [None] when the
    request does not validate (the handler is then not called). *)
Definition dispatch (ep : endpoint) (request : Request) : option (App result) :=
  match ep with
  | topics_number =>
      Some (o ← get_number_of_topics; mret (NumTopicsResult o))
  | topics_get_topics =>
      num_topics ← query_int request "num_topics";
      Some (l ← get_topics num_topics; mret (TopicsResult l))
  | topics_search =>
      keyword_search ← body_param request KeywordSearchTopic_validate;
      Some (l ← search_topics_by_keywords keyword_search; mret (TopicResultsResult l))
  | documents_search_by_topic =>
      topic_num ← query_int request "topic_num";
      num_docs ← query_int request "num_docs";
      Some (l ← search_documents_by_topic topic_num num_docs; mret (DocumentsResult l))
  | documents_search_by_keyword =>
      keyword_search ← body_param request KeywordSearchDocument_validate;
      Some (l ← search_documents_by_keywords keyword_search; mret (DocumentsResult l))
  | documents_search_by_document =>
      doc_num ← query_int request "doc_num";
      num_docs ← query_int request "num_docs";
      Some (l ← search_documents_by_document doc_num num_docs; mret (DocumentsResult l))
  | words_find_similar =>
      keyword_search ← body_param request KeywordSearchWord_validate;
      Some (l ← find_similar_words keyword_search; mret (WordResultsResult l))
  end.

(** [JSONResponse.render]: the content is dumped with [allow_nan=False], so
    the first float out of range raises a [ValueError]. *)
Definition render (content : payload) : outcome payload :=
  match List.find out_of_range (floats_of content) with
  | Some f => Raise (ValueError (out_of_range_float f))
  | None => Return content
  end.

(** The response made of what a handler returned.  It is built inside the
    route, so an exception raised while rendering it goes to the registered
    exception handlers like one raised by the handler. *)
Definition rendered (request : Request) (content : payload) : Response :=
  match render content with
  | Return content' => JSONResponse HTTP_200_OK content'
  | Raise exc => exception_response request exc
  end.

(** One request through the application. *)
Definition app (ep : endpoint) (request : Request) (w : world) : Response * world :=
  match dispatch ep request with
  | None => (request_validation_error, w)
  | Some handler =>
      match handler w with
      | (Return r, w') => (rendered request (serialize r), w')
      | (Raise exc, w') => (exception_response request exc, w')
      end
  end.

(** ** The process *)

Definition model_path : string := "top2vec_model/top2vec_20newsgroups".

(** Module import: [top2vec = Top2Vec.load(...)]. *)
Definition startup : outcome world :=
  match Top2Vec.load model_path with
  | Return m =>
      Return {| top2vec := m;
                calls := [Loaded model_path];
                next_obj := 0 |}
  | Raise exc => Raise exc
  end.

(** The requests of a run, answered one after the other. *)
Fixpoint serve (requests : list (endpoint * Request)) (w : world)
  : list Response * world :=
  match requests with
  | [] => ([], w)
  | (ep, request) :: requests' =>
      let (response, w') := app ep request w in
      let (responses, w'') := serve requests' w' in
      (response :: responses, w'')
  end.

Definition main (requests : list (endpoint * Request)) : outcome (list Response * world) :=
  match startup with
  | Return w => Return (serve requests w)
  | Raise exc => Raise exc
  end.

End Server.

(** ** What the specification says of a handler

    The definitions of this part follow the specification's wording, not the
    source: one model method call, the parallel sequences it returns zipped
    into response objects, these returned as a list. *)

Definition Topic_of (row : list string * list float * Z) : Topic :=
  let '(words, scores, num) := row in
  {| topic_num := num; topic_words := words; word_scores := scores |}.

Definition TopicResult_of (row : list string * list float * float * Z) : TopicResult :=
  let '(words, scores, topic_score, num) := row in
  {| topic := Topic_of (words, scores, num); topic_score := topic_score |}.

Definition Document_of (row : string * float * Z) : Document :=
  let '(doc, score, num) := row in
  {| content := doc; score := score; doc_num := num |}.

Definition WordResult_of (row : string * float) : WordResult :=
  let '(word, score) := row in
  {| word := word; word_score := score |}.

Definition zipped_Topics
  (r : list (list string) * list (list float) * list Z) : list Topic :=
  let '(topic_words, word_scores, topic_nums) := r in
  map Topic_of (zip3 topic_words word_scores topic_nums).

Definition zipped_TopicResults
  (r : list (list string) * list (list float) * list float * list Z) : list TopicResult :=
  let '(topic_words, word_scores, topic_scores, topic_nums) := r in
  map TopicResult_of (zip4 topic_words word_scores topic_scores topic_nums).

Definition zipped_Documents (r : list string * list float * list Z) : list Document :=
  let '(docs, doc_scores, doc_nums) := r in
  map Document_of (zip3 docs doc_scores doc_nums).

Definition zipped_WordResults (r : list string * list float) : list WordResult :=
  let '(words, word_scores) := r in
  map WordResult_of (zip words word_scores).

(** The complete response to a request whose model call returned [rv]. *)
Definition complete (rv : returned) : payload :=
  match rv with
  | RNumTopics n => NumTopicsJSON {| NumTopics_num_topics := n |}
  | RTopics r => TopicsJSON (zipped_Topics r)
  | RTopicScores r => TopicResultsJSON (zipped_TopicResults r)
  | RDocuments r => DocumentsJSON (zipped_Documents r)
  | RWords r => WordResultsJSON (zipped_WordResults r)
  end.

(** The number of response objects a complete response is made of. *)
Definition built (rv : returned) : nat :=
  match rv with
  | RNumTopics _ => 1
  | RTopics r => length (zipped_Topics r)
  | RTopicScores r => length (zipped_TopicResults r)
  | RDocuments r => length (zipped_Documents r)
  | RWords r => length (zipped_WordResults r)
  end.

(** The value a handler returns when its model call returned [rv] and the
    next free object identity was [start]. *)
Definition fresh_result (start : nat) (rv : returned) : result :=
  match rv with
  | RNumTopics n =>
      NumTopicsResult {| obj_id := start; obj_val := {| NumTopics_num_topics := n |} |}
  | RTopics r => TopicsResult (objects start (zipped_Topics r))
  | RTopicScores r => TopicResultsResult (objects start (zipped_TopicResults r))
  | RDocuments r => DocumentsResult (objects start (zipped_Documents r))
  | RWords r => WordResultsResult (objects start (zipped_WordResults r))
  end.

(** How many times a trace shows the model being loaded. *)
Definition loads (trace : list event) : nat := length (List.filter is_load trace).


(** A payload that carries no result of the model. *)
Definition no_results (p : payload) : Prop :=
  match p with
  | MessageJSON _ | FrameworkJSON => True
  | _ => False
  end.

Section Specification.

Context {P : Pydantic} {T : Top2Vec.Model}.

(** The model's answer to a method call. *)
Definition invoke (c : method_call) (m : Top2Vec.state)
  : outcome returned * Top2Vec.state :=
  match c with
  | GetNumTopics =>
      let (r, m') := Top2Vec.get_num_topics m in (outcome_map RNumTopics r, m')
  | GetTopics n =>
      let (r, m') := Top2Vec.get_topics n m in (outcome_map RTopics r, m')
  | SearchTopics kw n neg =>
      let (r, m') := Top2Vec.search_topics kw n neg m in (outcome_map RTopicScores r, m')
  | SearchDocumentsByTopic t n =>
      let (r, m') := Top2Vec.search_documents_by_topic t n m in (outcome_map RDocuments r, m')
  | SearchDocumentsByKeyword kw n neg =>
      let (r, m') := Top2Vec.search_documents_by_keyword kw n neg m in
      (outcome_map RDocuments r, m')
  | SearchDocumentsByDocument d n =>
      let (r, m') := Top2Vec.search_documents_by_document d n m in
      (outcome_map RDocuments r, m')
  | SimilarWords kw n neg =>
      let (r, m') := Top2Vec.similar_words kw n neg m in (outcome_map RWords r, m')
  end.

(** [w] after [n] more objects were constructed. *)
Definition allocated (n : nat) (w : world) : world :=
  {| top2vec := top2vec w; calls := calls w; next_obj := next_obj w + n |}.

(** [w] after the method call [c] gave [r] and left the model as [m']. *)
Definition called (c : method_call) (r : outcome returned) (m' : Top2Vec.state)
  (w : world) : world :=
  {| top2vec := m'; calls := calls w ++ [Called c r]; next_obj := next_obj w |}.

(** A handler that does nothing but delegate: the one call [c], whose outcome
    is [run]; when it returns, the zipped rows as fresh objects in a list;
    when it raises, the exception. *)
Definition delegate {A V : Type} (c : method_call) (tag : A -> returned)
  (zipped : A -> list V) (run : outcome A * Top2Vec.state) (w : world)
  : outcome (list (obj V)) * world :=
  let (r, m') := run in
  match r with
  | Return a =>
      (Return (objects (next_obj w) (zipped a)),
       allocated (length (zipped a)) (called c (Return (tag a)) m' w))
  | Raise exc => (Raise exc, called c (Raise exc) m' w)
  end.

(** The run gave a value, and the value satisfies [Q]. *)
Definition returns {A : Type} (run : outcome A * world) (Q : A -> Prop) : Prop :=
  exists a w', run = (Return a, w') /\ Q a.

(** The run of a route's handler whose one model call is [c]. *)
Definition handled (c : method_call) (w : world) : outcome result * world :=
  let (r, m') := invoke c (top2vec w) in
  match r with
  | Return rv =>
      (Return (fresh_result (next_obj w) rv), allocated (built rv) (called c r m' w))
  | Raise exc => (Raise exc, called c r m' w)
  end.

(** The answer to a request whose one model call is [c]. *)
Definition answered (request : Request) (c : method_call) (w : world)
  : Response * world :=
  let (r, m') := invoke c (top2vec w) in
  match r with
  | Return rv =>
      (rendered request (complete rv),
       allocated (built rv) (called c r m' w))
  | Raise exc => (exception_response request exc, called c r m' w)
  end.

End Specification.

(** ** Sample instances

    A small in-memory model that rejects out-of-range numbers, a model whose
    sequences do not line up, and validators that accept only values already
    of the declared type (integers also in decimal notation, as they arrive
    in a query string). *)

Record corpus : Type := {
  corpus_topics : list (list string * list float);
  corpus_documents : list string;
}.

Definition within (n : Z) (size : nat) : bool :=
  (0 <=? n) && (n <=? Z.of_nat size).

Definition indexes (i : Z) (size : nat) : bool :=
  (0 <=? i) && (i <? Z.of_nat size).

Definition sample_scores (n : Z) : list float := replicate (Z.to_nat n) 1%float.

Definition sample_documents (n : Z) (m : corpus)
  : outcome (list string * list float * list Z) * corpus :=
  if within n (length (corpus_documents m)) then
    (Return (take (Z.to_nat n) (corpus_documents m), sample_scores n, seqZ 0 n), m)
  else (Raise (ValueError "num_docs out of range"), m).

Definition sample_topics (n : Z) (m : corpus)
  : outcome (list (list string) * list (list float) * list Z) * corpus :=
  if within n (length (corpus_topics m)) then
    (Return (take (Z.to_nat n) (map fst (corpus_topics m)),
             take (Z.to_nat n) (map snd (corpus_topics m)),
             seqZ 0 n), m)
  else (Raise (ValueError "num_topics out of range"), m).

Definition newsgroups : corpus :=
  {| corpus_topics := [(["space"; "nasa"], [0.75; 0.5]%float);
                       (["car"; "engine"], [0.25; 0.125]%float)];
     corpus_documents := ["launch"; "orbit"; "wheel"] |}.

#[local] Instance sample : Top2Vec.Model := {|
  Top2Vec.state := corpus;
  Top2Vec.load := fun path => Return newsgroups;
  Top2Vec.get_num_topics := fun m => (Return (Z.of_nat (length (corpus_topics m))), m);
  Top2Vec.get_topics := sample_topics;
  Top2Vec.search_topics := fun kw n neg m =>
    match sample_topics n m with
    | (Return (tw, ws, tn), m') => (Return (tw, ws, sample_scores n, tn), m')
    | (Raise exc, m') => (Raise exc, m')
    end;
  Top2Vec.search_documents_by_topic := fun t n m =>
    if indexes t (length (corpus_topics m)) then sample_documents n m
    else (Raise (ValueError "Invalid topic number."), m);
  Top2Vec.search_documents_by_keyword := fun kw n neg m => sample_documents n m;
  Top2Vec.search_documents_by_document := fun d n m =>
    if indexes d (length (corpus_documents m)) then sample_documents n m
    else (Raise (ValueError "Invalid document number."), m);
  Top2Vec.similar_words := fun kw n neg m =>
    if within n 2 then
      (Return (take (Z.to_nat n) ["rocket"; "moon"], sample_scores n), m)
    else (Raise (ValueError "num_words out of range"), m);
|}.

(** A model whose answers do not line up: one topic with two words and one
    score; three documents with two scores. *)
#[local] Instance ragged : Top2Vec.Model := {|
  Top2Vec.state := unit;
  Top2Vec.load := fun path => Return tt;
  Top2Vec.get_num_topics := fun m => (Return 1, m);
  Top2Vec.get_topics := fun n m =>
    (Return ([["space"; "nasa"]], [[0.75%float]], [0]), m);
  Top2Vec.search_topics := fun kw n neg m =>
    (Return ([["space"; "nasa"]], [[0.75%float]], [1%float], [0]), m);
  Top2Vec.search_documents_by_topic := fun t n m =>
    (Return (["launch"; "orbit"; "wheel"], [0.5; 0.25]%float, [0; 1; 2]), m);
  Top2Vec.search_documents_by_keyword := fun kw n neg m =>
    (Return (["launch"; "orbit"; "wheel"], [0.5; 0.25]%float, [0; 1; 2]), m);
  Top2Vec.search_documents_by_document := fun d n m =>
    (Return (["launch"; "orbit"; "wheel"], [0.5; 0.25]%float, [0; 1; 2]), m);
  Top2Vec.similar_words := fun kw n neg m =>
    (Return (["rocket"; "moon"], [0.125%float]), m);
|}.

Fixpoint decimal (s : string) (acc : Z) : option Z :=
  match s with
  | EmptyString => Some acc
  | String c s' =>
      let d := Z.of_nat (Ascii.nat_of_ascii c) - 48 in
      if (0 <=? d) && (d <=? 9) then decimal s' (10 * acc + d) else None
  end.

Definition strict_int (v : json) : option Z :=
  match v with
  | JInt n => Some n
  | JString (String c s') => decimal (String c s') 0
  | _ => None
  end.

Definition strict_str (v : json) : option string :=
  match v with
  | JString s => Some s
  | _ => None
  end.

Definition strict_list_str (v : json) : option (list string) :=
  match v with
  | JArray items => mapM strict_str items
  | _ => None
  end.

#[local] Instance strict : Pydantic := {|
  int_validator := strict_int;
  list_str_validator := strict_list_str;
  out_of_range_float := fun f => "Out of range float values are not JSON compliant";
|}.

Definition sample_world : world (T := sample) :=
  @Build_world sample newsgroups [Loaded model_path] 0.

Definition ragged_world : world (T := ragged) :=
  @Build_world ragged tt [Loaded model_path] 0.

(** Sample requests. *)
Definition get_one_topic : Request :=
  {| query_params := {["num_topics" := "1"]}; json_body := None |}.

Definition documents_of_topic_7 : Request :=
  {| query_params := <["topic_num" := "7"]> {["num_docs" := "1"]}; json_body := None |}.

Definition documents_like_document_9 : Request :=
  {| query_params := <["doc_num" := "9"]> {["num_docs" := "1"]}; json_body := None |}.

Definition search_members (count_field : string) : gmap string json :=
  <["keywords" := JArray [JString "space"]]>
    (<["keywords_neg" := JArray []]> {[count_field := JInt 1]}).

(** A keyword search whose negative keywords are the empty list, and the same
    search with the member left out. *)
Definition search_with_empty_negatives (count_field : string) : Request :=
  {| query_params := ∅; json_body := Some (search_members count_field) |}.

Definition search_without_negatives (count_field : string) : Request :=
  {| query_params := ∅;
     json_body := Some (delete "keywords_neg" (search_members count_field)) |}.

(** [request] with the member [name] of its body left out. *)
Definition without_member (name : string) (request : Request) : Request :=
  {| query_params := query_params request;
     json_body := delete name <$> json_body request |}.

(** A model whose every query fails with an exception that is not a
    [ValueError]. *)
#[local] Instance broken : Top2Vec.Model := {|
  Top2Vec.state := unit;
  Top2Vec.load := fun path => Return tt;
  Top2Vec.get_num_topics := fun m => (Raise (OtherError "RuntimeError" "no index"), m);
  Top2Vec.get_topics := fun n m => (Raise (OtherError "RuntimeError" "no index"), m);
  Top2Vec.search_topics := fun kw n neg m =>
    (Raise (OtherError "RuntimeError" "no index"), m);
  Top2Vec.search_documents_by_topic := fun t n m =>
    (Raise (OtherError "RuntimeError" "no index"), m);
  Top2Vec.search_documents_by_keyword := fun kw n neg m =>
    (Raise (OtherError "RuntimeError" "no index"), m);
  Top2Vec.search_documents_by_document := fun d n m =>
    (Raise (OtherError "RuntimeError" "no index"), m);
  Top2Vec.similar_words := fun kw n neg m =>
    (Raise (OtherError "RuntimeError" "no index"), m);
|}.

Definition broken_world : world (T := broken) :=
  @Build_world broken tt [Loaded model_path] 0.



(** Whether a request passes the validation of its route. *)
Definition validates {P : Pydantic} {T : Top2Vec.Model}
  (ep : endpoint) (request : Request) : bool :=
  match dispatch ep request with
  | Some _ => true
  | None => false
  end.

(** * Properties *)

(** ** The sample model at work *)

Example one_topic_of_the_sample :
  app (P := strict) topics_get_topics get_one_topic sample_world
  = (JSONResponse 200
       (TopicsJSON [{| topic_num := 0; topic_words := ["space"; "nasa"];
                       word_scores := [0.75; 0.5]%float |}]),
     @Build_world sample newsgroups
       [Loaded model_path;
        Called (GetTopics 1)
          (Return (RTopics ([["space"; "nasa"]], [[0.75; 0.5]%float], [0])))]
       1).
Proof. vm_compute. reflexivity. Qed.

Example no_document_9_in_the_sample :
  fst (app (P := strict) (T := sample)
         documents_search_by_document documents_like_document_9 sample_world)
  = JSONResponse 404 (MessageJSON "Invalid document number.").
Proof. vm_compute. reflexivity. Qed.

Example missing_query_parameter :
  app (P := strict) documents_search_by_topic get_one_topic sample_world
  = (JSONResponse 422 FrameworkJSON, sample_world).
Proof. vm_compute. reflexivity. Qed.

Example ragged_documents :
  fst (search_documents_by_topic 0 3 ragged_world)
  = Return [{| obj_id := 0;
               obj_val := {| content := "launch"; score := 0.5%float; doc_num := 0 |} |};
            {| obj_id := 1;
               obj_val := {| content := "orbit"; score := 0.25%float; doc_num := 1 |} |}].
Proof. reflexivity. Qed.

(** ** Python's [zip] *)

Lemma zip3_length {A B C : Type} (xs : list A) (ys : list B) (zs : list C) :
  length (zip3 xs ys zs) = (length xs `min` (length ys `min` length zs))%nat.
Proof.
  revert ys zs; induction xs as [|x xs IH]; intros [|y ys] [|z zs]; simpl; try lia.
  rewrite IH; lia.
Qed.

Lemma zip4_length {A B C D : Type}
  (xs : list A) (ys : list B) (zs : list C) (us : list D) :
  length (zip4 xs ys zs us)
  = (length xs `min` (length ys `min` (length zs `min` length us)))%nat.
Proof.
  revert ys zs us; induction xs as [|x xs IH]; intros [|y ys] [|z zs] [|u us];
    simpl; try lia.
  rewrite IH; lia.
Qed.

(** The [i]-th triple of [zip3] is made of the [i]-th elements. *)
Lemma zip3_lookup {A B C : Type} (xs : list A) (ys : list B) (zs : list C)
  (i : nat) (x : A) (y : B) (z : C) :
  zip3 xs ys zs !! i = Some (x, y, z)
  <-> xs !! i = Some x /\ ys !! i = Some y /\ zs !! i = Some z.
Proof.
  revert ys zs i; induction xs as [|x' xs IH]; intros [|y' ys] [|z' zs] [|i];
    simpl; try (split; [discriminate | intros (? & ? & ?); discriminate]).
  - split; [intros [= -> -> ->]; auto | intros ([= ->] & [= ->] & [= ->]); auto].
  - apply IH.
Qed.

(** ** Objects *)

Lemma objects_length {A : Type} (start : nat) (vs : list A) :
  length (objects start vs) = length vs.
Proof. revert start; induction vs; intros; simpl; auto. Qed.

Lemma objects_val {A : Type} (start : nat) (vs : list A) :
  map obj_val (objects start vs) = vs.
Proof. revert start; induction vs; intros; simpl; f_equal; auto. Qed.

Lemma objects_id {A : Type} (start : nat) (vs : list A) :
  map obj_id (objects start vs) = seq start (length vs).
Proof. revert start; induction vs; intros; simpl; f_equal; auto. Qed.

Section Runs.

Context {T : Top2Vec.Model}.

Lemma allocated_0 (w : world) : allocated 0 w = w.
Proof. destruct w; unfold allocated; simpl; f_equal; lia. Qed.

Lemma allocated_S (n : nat) (w : world) :
  allocated n {| top2vec := top2vec w; calls := calls w; next_obj := S (next_obj w) |}
  = allocated (S n) w.
Proof. unfold allocated; simpl; f_equal; lia. Qed.

(** ** The loops

    A loop whose body constructs one object from the row and appends it to
    the list leaves the list extended by one fresh object per row, in order. *)
Lemma for_new_append {X V : Type} (f : X -> V) (body : X -> list (obj V) -> App (list (obj V))) :
  (forall x acc w, body x acc w = (o ← new (f x); mret (acc ++ [o])) w) ->
  forall xs acc w,
    for_ xs body acc w
    = (Return (acc ++ objects (next_obj w) (map f xs)), allocated (length xs) w).
Proof.
  intros Hbody xs; induction xs as [|x xs IH]; intros acc w; simpl.
  - rewrite app_nil_r, allocated_0. reflexivity.
  - unfold mbind, App_bind, bind at 1. rewrite Hbody.
    unfold mbind, App_bind, bind, new, mret, App_ret, ret; simpl.
    rewrite IH; simpl. rewrite <- app_assoc; simpl.
    rewrite allocated_S. reflexivity.
Qed.

(** ** What running each handler gives *)

Ltac run_delegating row_of :=
  intros; unfold delegate, mbind, App_bind, bind, call; cbv beta;
  match goal with
  | |- context [let (_, _) := ?method (top2vec ?w) in _] =>
      destruct (method (top2vec w)) as [[a|exc] m']
  end; simpl; [|reflexivity];
  repeat match goal with a : (_ * _)%type |- _ => destruct a end;
  rewrite (for_new_append row_of) by (intros; repeat case_match; reflexivity);
  simpl; rewrite ?length_map; reflexivity.

Lemma get_number_of_topics_run (w : world) :
  get_number_of_topics w
  = let (r, m') := Top2Vec.get_num_topics (top2vec w) in
    match r with
    | Return n =>
        (Return {| obj_id := next_obj w; obj_val := {| NumTopics_num_topics := n |} |},
         allocated 1 (called GetNumTopics (Return (RNumTopics n)) m' w))
    | Raise exc => (Raise exc, called GetNumTopics (Raise exc) m' w)
    end.
Proof.
  unfold get_number_of_topics, mbind, App_bind, bind, call, new.
  destruct (Top2Vec.get_num_topics (top2vec w)) as [[n|exc] m']; simpl; [|reflexivity].
  unfold allocated, called; simpl. rewrite Nat.add_1_r. reflexivity.
Qed.

Lemma get_topics_run (num_topics : Z) (w : world) :
  get_topics num_topics w
  = delegate (GetTopics num_topics) RTopics zipped_Topics
      (Top2Vec.get_topics num_topics (top2vec w)) w.
Proof. unfold get_topics. run_delegating Topic_of. Qed.

Lemma search_topics_by_keywords_run (keyword_search : KeywordSearchTopic) (w : world) :
  let ks := KeywordSearchTopic_base keyword_search in
  search_topics_by_keywords keyword_search w
  = delegate (SearchTopics (keywords ks) (num_topics keyword_search) (keywords_neg ks))
      RTopicScores zipped_TopicResults
      (Top2Vec.search_topics (keywords ks) (num_topics keyword_search) (keywords_neg ks)
         (top2vec w)) w.
Proof. unfold search_topics_by_keywords. run_delegating TopicResult_of. Qed.

Lemma search_documents_by_topic_run (topic_num num_docs : Z) (w : world) :
  search_documents_by_topic topic_num num_docs w
  = delegate (SearchDocumentsByTopic topic_num num_docs) RDocuments zipped_Documents
      (Top2Vec.search_documents_by_topic topic_num num_docs (top2vec w)) w.
Proof. unfold search_documents_by_topic. run_delegating Document_of. Qed.

Lemma search_documents_by_keywords_run (keyword_search : KeywordSearchDocument) (w : world) :
  let ks := KeywordSearchDocument_base keyword_search in
  search_documents_by_keywords keyword_search w
  = delegate (SearchDocumentsByKeyword (keywords ks) (num_docs keyword_search) (keywords_neg ks))
      RDocuments zipped_Documents
      (Top2Vec.search_documents_by_keyword
         (keywords ks) (num_docs keyword_search) (keywords_neg ks) (top2vec w)) w.
Proof. unfold search_documents_by_keywords. run_delegating Document_of. Qed.

Lemma search_documents_by_document_run (doc_num num_docs : Z) (w : world) :
  search_documents_by_document doc_num num_docs w
  = delegate (SearchDocumentsByDocument doc_num num_docs) RDocuments zipped_Documents
      (Top2Vec.search_documents_by_document doc_num num_docs (top2vec w)) w.
Proof. unfold search_documents_by_document. run_delegating Document_of. Qed.

Lemma find_similar_words_run (keyword_search : KeywordSearchWord) (w : world) :
  let ks := KeywordSearchWord_base keyword_search in
  find_similar_words keyword_search w
  = delegate (SimilarWords (keywords ks) (num_words keyword_search) (keywords_neg ks))
      RWords zipped_WordResults
      (Top2Vec.similar_words (keywords ks) (num_words keyword_search) (keywords_neg ks)
         (top2vec w)) w.
Proof. unfold find_similar_words. run_delegating WordResult_of. Qed.

End Runs.

Section Requests.

Context {P : Pydantic} {T : Top2Vec.Model}.

(** ** One request through the application *)

Ltac delegated method :=
  intros w; unfold mbind, App_bind, bind; cbv beta;
  rewrite method; unfold delegate, handled, invoke;
  match goal with
  | |- context [let (_, _) := ?m (top2vec w) in _] =>
      destruct (m (top2vec w)) as [[a|exc] m']
  end; reflexivity.

(** A request that validates is handled by one model call. *)
Lemma dispatch_run (ep : endpoint) (request : Request) (handler : App result) :
  dispatch ep request = Some handler ->
  exists c, forall w, handler w = handled c w.
Proof.
  destruct ep; unfold dispatch;
    repeat match goal with
    | |- context [query_int request ?name] =>
        destruct (query_int request name); simpl; [|discriminate]
    | |- context [body_param request ?validate] =>
        destruct (body_param request validate); simpl; [|discriminate]
    end;
    intros [= <-].
  - exists GetNumTopics; intros w. unfold mbind, App_bind, bind; cbv beta.
    rewrite get_number_of_topics_run. unfold handled, invoke.
    destruct (Top2Vec.get_num_topics (top2vec w)) as [[a|exc] m']; reflexivity.
  - match goal with |- context [get_topics ?n] => exists (GetTopics n) end.
    delegated get_topics_run.
  - match goal with |- context [search_topics_by_keywords ?k] =>
      exists (SearchTopics (keywords (KeywordSearchTopic_base k)) (num_topics k)
                (keywords_neg (KeywordSearchTopic_base k)))
    end.
    delegated search_topics_by_keywords_run.
  - match goal with |- context [search_documents_by_topic ?t ?n] =>
      exists (SearchDocumentsByTopic t n)
    end.
    delegated search_documents_by_topic_run.
  - match goal with |- context [search_documents_by_keywords ?k] =>
      exists (SearchDocumentsByKeyword (keywords (KeywordSearchDocument_base k)) (num_docs k)
                (keywords_neg (KeywordSearchDocument_base k)))
    end.
    delegated search_documents_by_keywords_run.
  - match goal with |- context [search_documents_by_document ?d ?n] =>
      exists (SearchDocumentsByDocument d n)
    end.
    delegated search_documents_by_document_run.
  - match goal with |- context [find_similar_words ?k] =>
      exists (SimilarWords (keywords (KeywordSearchWord_base k)) (num_words k)
                (keywords_neg (KeywordSearchWord_base k)))
    end.
    delegated find_similar_words_run.
Qed.

Lemma serialize_fresh_result (start : nat) (rv : returned) :
  serialize (fresh_result start rv) = complete rv.
Proof. destruct rv; simpl; rewrite ?objects_val; reflexivity. Qed.

Lemma object_ids_fresh_result (start : nat) (rv : returned) :
  object_ids (fresh_result start rv) = seq start (built rv).
Proof. destruct rv; simpl; rewrite ?objects_id; reflexivity. Qed.

(** Either the request does not validate, and it is answered by the framework
    without running the handler, or it is answered from one model call. *)
Lemma app_run (ep : endpoint) (request : Request) (w : world) :
  (dispatch ep request = None /\ app ep request w = (request_validation_error, w))
  \/ (exists c, app ep request w = answered request c w).
Proof.
  unfold app. destruct (dispatch ep request) as [handler|] eqn:Hd; [right|left; auto].
  destruct (dispatch_run _ _ _ Hd) as [c Hc]. exists c. rewrite Hc.
  unfold handled, answered.
  destruct (invoke c (top2vec w)) as [[rv|exc] m']; [|reflexivity].
  rewrite serialize_fresh_result. reflexivity.
Qed.

(** A read-only model answers every call without changing. *)
Lemma invoke_read_only (c : method_call) (m : Top2Vec.state) :
  Top2Vec.read_only T -> snd (invoke c m) = m.
Proof.
  intros [H1 H2 H3 H4 H5 H6 H7]; destruct c; unfold invoke.
  - specialize (H1 m). destruct (Top2Vec.get_num_topics m); exact H1.
  - specialize (H2 num_topics0 m). destruct (Top2Vec.get_topics _ m); exact H2.
  - specialize (H3 keywords0 num_topics0 keywords_neg0 m).
    destruct (Top2Vec.search_topics _ _ _ m); exact H3.
  - specialize (H4 topic_num0 num_docs0 m).
    destruct (Top2Vec.search_documents_by_topic _ _ m); exact H4.
  - specialize (H5 keywords0 num_docs0 keywords_neg0 m).
    destruct (Top2Vec.search_documents_by_keyword _ _ _ m); exact H5.
  - specialize (H6 doc_num0 num_docs0 m).
    destruct (Top2Vec.search_documents_by_document _ _ m); exact H6.
  - specialize (H7 keywords0 num_words0 keywords_neg0 m).
    destruct (Top2Vec.similar_words _ _ _ m); exact H7.
Qed.

End Requests.

(** ** Rendering *)

Section Rendering.

Context {P : Pydantic}.

Lemma find_none_iff {A : Type} (f : A -> bool) (l : list A) :
  List.find f l = None <-> Forall (fun x => f x = false) l.
Proof.
  induction l as [|x l IH]; simpl.
  - split; [constructor | reflexivity].
  - destruct (f x) eqn:Hx.
    + split; [discriminate | intros H; inversion H; congruence].
    + rewrite IH. split; [intros H; constructor; assumption | intros H; inversion H; assumption].
Qed.

(** Rendering either gives the content back, when all its floats are in
    range, or raises a [ValueError] on the first that is not. *)
Lemma render_cases (content : payload) :
  (render content = Return content
   /\ Forall (fun f => out_of_range f = false) (floats_of content))
  \/ (exists f, List.find out_of_range (floats_of content) = Some f
                /\ out_of_range f = true
                /\ render content = Raise (ValueError (out_of_range_float f))).
Proof.
  unfold render. destruct (List.find out_of_range (floats_of content)) as [f|] eqn:Hf.
  - right. exists f. repeat split. apply List.find_some in Hf. apply Hf.
  - left. split; [reflexivity | apply find_none_iff, Hf].
Qed.



(** The response made of a returned value is the 200 that carries it, or the
    404 that [value_error_handler] makes of the rendering error. *)
Lemma rendered_cases (request : Request) (content : payload) :
  (render content = Return content
   /\ rendered request content = JSONResponse HTTP_200_OK content)
  \/ (exists text, render content = Raise (ValueError text)
                   /\ rendered request content = JSONResponse 404 (MessageJSON text)).
Proof.
  unfold rendered. destruct (render_cases content) as [[Hr _] | (f & _ & _ & Hr)]; rewrite Hr.
  - left. split; reflexivity.
  - right. eexists. split; reflexivity.
Qed.

End Rendering.

(** ** The handlers delegate *)

(** What [delegate] amounts to on the process state: the trace grows by the
    one call, the model is left as the method left it, and the only objects
    allocated are those of the returned list. *)
Lemma delegate_world {T : Top2Vec.Model} {A V : Type} (c : method_call)
  (tag : A -> returned) (zipped : A -> list V)
  (run : outcome A * Top2Vec.state) (w : world) :
  let w' := snd (delegate c tag zipped run w) in
  calls w' = calls w ++ [Called c (outcome_map tag (fst run))]
  /\ top2vec w' = snd run
  /\ next_obj w'
     = (next_obj w + match fst run with Return a => length (zipped a) | Raise _ => 0 end)%nat.
Proof.
  destruct run as [[a|exc] m']; simpl; repeat split; lia.
Qed.

(** C1: each of the six list handlers calls exactly one model method, with
    the arguments the request supplied; when the method returns, the handler
    returns the list of response objects obtained by zipping the returned
    parallel sequences, in order; when it raises, the exception propagates.
    The handler does nothing else: its run is that of [delegate]. *)
Theorem handlers_delegate_and_zip {T : Top2Vec.Model} :
  (forall num_topics w,
     get_topics num_topics w
     = delegate (GetTopics num_topics) RTopics zipped_Topics
         (Top2Vec.get_topics num_topics (top2vec w)) w)
  /\ (forall keyword_search w,
        let ks := KeywordSearchTopic_base keyword_search in
        search_topics_by_keywords keyword_search w
        = delegate
            (SearchTopics (keywords ks) (num_topics keyword_search) (keywords_neg ks))
            RTopicScores zipped_TopicResults
            (Top2Vec.search_topics
               (keywords ks) (num_topics keyword_search) (keywords_neg ks) (top2vec w)) w)
  /\ (forall topic_num num_docs w,
        search_documents_by_topic topic_num num_docs w
        = delegate (SearchDocumentsByTopic topic_num num_docs) RDocuments zipped_Documents
            (Top2Vec.search_documents_by_topic topic_num num_docs (top2vec w)) w)
  /\ (forall keyword_search w,
        let ks := KeywordSearchDocument_base keyword_search in
        search_documents_by_keywords keyword_search w
        = delegate
            (SearchDocumentsByKeyword (keywords ks) (num_docs keyword_search) (keywords_neg ks))
            RDocuments zipped_Documents
            (Top2Vec.search_documents_by_keyword
               (keywords ks) (num_docs keyword_search) (keywords_neg ks) (top2vec w)) w)
  /\ (forall doc_num num_docs w,
        search_documents_by_document doc_num num_docs w
        = delegate (SearchDocumentsByDocument doc_num num_docs) RDocuments zipped_Documents
            (Top2Vec.search_documents_by_document doc_num num_docs (top2vec w)) w)
  /\ (forall keyword_search w,
        let ks := KeywordSearchWord_base keyword_search in
        find_similar_words keyword_search w
        = delegate
            (SimilarWords (keywords ks) (num_words keyword_search) (keywords_neg ks))
            RWords zipped_WordResults
            (Top2Vec.similar_words
               (keywords ks) (num_words keyword_search) (keywords_neg ks) (top2vec w)) w).
Proof.
  repeat split; intros.
  - apply get_topics_run.
  - apply search_topics_by_keywords_run.
  - apply search_documents_by_topic_run.
  - apply search_documents_by_keywords_run.
  - apply search_documents_by_document_run.
  - apply find_similar_words_run.
Qed.

(** ** Lengths of the returned lists *)

Lemma delegate_returns {T : Top2Vec.Model} {A V : Type} (c : method_call)
  (tag : A -> returned) (zipped : A -> list V) (a : A) (m' : Top2Vec.state)
  (w : world) (Q : list (obj V) -> Prop) :
  Q (objects (next_obj w) (zipped a)) ->
  returns (delegate c tag zipped (Return a, m') w) Q.
Proof. intros HQ. unfold returns, delegate. eauto. Qed.

(** C9: the list a handler returns is as long as the shortest of the
    sequences the model returned; when they differ in length the handler
    still returns, and what lies beyond the shortest is dropped. *)
Theorem zip_stops_at_shortest {T : Top2Vec.Model} :
  (forall num_topics w tw ws tn m',
     Top2Vec.get_topics num_topics (top2vec w) = (Return (tw, ws, tn), m') ->
     returns (get_topics num_topics w)
       (fun l => length l = (length tw `min` (length ws `min` length tn))%nat))
  /\ (forall ks w tw ws ts tn m',
        Top2Vec.search_topics (keywords (KeywordSearchTopic_base ks)) (num_topics ks)
          (keywords_neg (KeywordSearchTopic_base ks)) (top2vec w)
        = (Return (tw, ws, ts, tn), m') ->
        returns (search_topics_by_keywords ks w)
          (fun l => length l
                    = (length tw `min` (length ws `min` (length ts `min` length tn)))%nat))
  /\ (forall topic_num num_docs w docs scores nums m',
        Top2Vec.search_documents_by_topic topic_num num_docs (top2vec w)
        = (Return (docs, scores, nums), m') ->
        returns (search_documents_by_topic topic_num num_docs w)
          (fun l => length l = (length docs `min` (length scores `min` length nums))%nat))
  /\ (forall ks w docs scores nums m',
        Top2Vec.search_documents_by_keyword (keywords (KeywordSearchDocument_base ks))
          (num_docs ks) (keywords_neg (KeywordSearchDocument_base ks)) (top2vec w)
        = (Return (docs, scores, nums), m') ->
        returns (search_documents_by_keywords ks w)
          (fun l => length l = (length docs `min` (length scores `min` length nums))%nat))
  /\ (forall doc_num num_docs w docs scores nums m',
        Top2Vec.search_documents_by_document doc_num num_docs (top2vec w)
        = (Return (docs, scores, nums), m') ->
        returns (search_documents_by_document doc_num num_docs w)
          (fun l => length l = (length docs `min` (length scores `min` length nums))%nat))
  /\ (forall ks w words scores m',
        Top2Vec.similar_words (keywords (KeywordSearchWord_base ks)) (num_words ks)
          (keywords_neg (KeywordSearchWord_base ks)) (top2vec w)
        = (Return (words, scores), m') ->
        returns (find_similar_words ks w)
          (fun l => length l = (length words `min` length scores)%nat)).
Proof.
  repeat split; intros.
  - rewrite get_topics_run, H. apply delegate_returns.
    simpl. rewrite objects_length, length_map. apply zip3_length.
  - rewrite search_topics_by_keywords_run; simpl. rewrite H. apply delegate_returns.
    simpl. rewrite objects_length, length_map. apply zip4_length.
  - rewrite search_documents_by_topic_run, H. apply delegate_returns.
    simpl. rewrite objects_length, length_map. apply zip3_length.
  - rewrite search_documents_by_keywords_run; simpl. rewrite H. apply delegate_returns.
    simpl. rewrite objects_length, length_map. apply zip3_length.
  - rewrite search_documents_by_document_run, H. apply delegate_returns.
    simpl. rewrite objects_length, length_map. apply zip3_length.
  - rewrite find_similar_words_run; simpl. rewrite H. apply delegate_returns.
    simpl. rewrite objects_length, length_map. apply length_zip.
Qed.

(** Three documents and two scores give two [Document]s, and no error. *)
Lemma zip_stops_at_shortest_ragged :
  returns (search_documents_by_topic 0 3 ragged_world) (fun l => length l = 2%nat).
Proof.
  apply (proj1 (proj2 (proj2 (zip_stops_at_shortest (T := ragged))))
           0 3 ragged_world ["launch"; "orbit"; "wheel"] [0.5; 0.25]%float [0; 1; 2] tt).
  reflexivity.
Defined.

(** C5: when the model's sequences are each at most as long as the count the
    request asked for, so is the list the handler returns. *)
Theorem response_within_requested_count {T : Top2Vec.Model} :
  (forall num_topics w tw ws tn m',
     Top2Vec.get_topics num_topics (top2vec w) = (Return (tw, ws, tn), m') ->
     Z.of_nat (length tw) <= num_topics -> Z.of_nat (length ws) <= num_topics ->
     Z.of_nat (length tn) <= num_topics ->
     returns (get_topics num_topics w) (fun l => Z.of_nat (length l) <= num_topics))
  /\ (forall ks w tw ws ts tn m',
        Top2Vec.search_topics (keywords (KeywordSearchTopic_base ks)) (num_topics ks)
          (keywords_neg (KeywordSearchTopic_base ks)) (top2vec w)
        = (Return (tw, ws, ts, tn), m') ->
        Z.of_nat (length tw) <= num_topics ks -> Z.of_nat (length ws) <= num_topics ks ->
        Z.of_nat (length ts) <= num_topics ks -> Z.of_nat (length tn) <= num_topics ks ->
        returns (search_topics_by_keywords ks w)
          (fun l => Z.of_nat (length l) <= num_topics ks))
  /\ (forall topic_num num_docs w docs scores nums m',
        Top2Vec.search_documents_by_topic topic_num num_docs (top2vec w)
        = (Return (docs, scores, nums), m') ->
        Z.of_nat (length docs) <= num_docs -> Z.of_nat (length scores) <= num_docs ->
        Z.of_nat (length nums) <= num_docs ->
        returns (search_documents_by_topic topic_num num_docs w)
          (fun l => Z.of_nat (length l) <= num_docs))
  /\ (forall ks w docs scores nums m',
        Top2Vec.search_documents_by_keyword (keywords (KeywordSearchDocument_base ks))
          (num_docs ks) (keywords_neg (KeywordSearchDocument_base ks)) (top2vec w)
        = (Return (docs, scores, nums), m') ->
        Z.of_nat (length docs) <= num_docs ks -> Z.of_nat (length scores) <= num_docs ks ->
        Z.of_nat (length nums) <= num_docs ks ->
        returns (search_documents_by_keywords ks w)
          (fun l => Z.of_nat (length l) <= num_docs ks))
  /\ (forall doc_num num_docs w docs scores nums m',
        Top2Vec.search_documents_by_document doc_num num_docs (top2vec w)
        = (Return (docs, scores, nums), m') ->
        Z.of_nat (length docs) <= num_docs -> Z.of_nat (length scores) <= num_docs ->
        Z.of_nat (length nums) <= num_docs ->
        returns (search_documents_by_document doc_num num_docs w)
          (fun l => Z.of_nat (length l) <= num_docs))
  /\ (forall ks w words scores m',
        Top2Vec.similar_words (keywords (KeywordSearchWord_base ks)) (num_words ks)
          (keywords_neg (KeywordSearchWord_base ks)) (top2vec w)
        = (Return (words, scores), m') ->
        Z.of_nat (length words) <= num_words ks -> Z.of_nat (length scores) <= num_words ks ->
        returns (find_similar_words ks w)
          (fun l => Z.of_nat (length l) <= num_words ks)).
Proof.
  repeat split; intros.
  - rewrite get_topics_run, H. apply delegate_returns.
    simpl. rewrite objects_length, length_map, zip3_length. lia.
  - rewrite search_topics_by_keywords_run; simpl. rewrite H. apply delegate_returns.
    simpl. rewrite objects_length, length_map, zip4_length. lia.
  - rewrite search_documents_by_topic_run, H. apply delegate_returns.
    simpl. rewrite objects_length, length_map, zip3_length. lia.
  - rewrite search_documents_by_keywords_run; simpl. rewrite H. apply delegate_returns.
    simpl. rewrite objects_length, length_map, zip3_length. lia.
  - rewrite search_documents_by_document_run, H. apply delegate_returns.
    simpl. rewrite objects_length, length_map, zip3_length. lia.
  - rewrite find_similar_words_run; simpl. rewrite H. apply delegate_returns.
    simpl. rewrite objects_length, length_map, length_zip. lia.
Qed.

(** Two documents asked of the sample model: at most two come back. *)
Lemma response_within_requested_count_sample :
  returns (search_documents_by_topic 0 2 sample_world)
    (fun l => Z.of_nat (length l) <= 2).
Proof.
  apply (proj1 (proj2 (proj2 (response_within_requested_count (T := sample))))
           0 2 sample_world ["launch"; "orbit"] [1; 1]%float [0; 1] newsgroups).
  - reflexivity.
  - simpl; lia.
  - simpl; lia.
  - simpl; lia.
Defined.

(** ** Requests that validate, route by route *)

Section Routes.

Context {P : Pydantic} {T : Top2Vec.Model}.

Ltac answered_by run :=
  intros; unfold app, dispatch;
  repeat match goal with H : _ = Some _ |- _ => rewrite H; clear H end;
  simpl; unfold mbind, App_bind, bind; cbv beta;
  rewrite run; unfold delegate, answered, invoke;
  match goal with
  | |- context [let (_, _) := ?m (top2vec ?w) in _] =>
      destruct (m (top2vec w)) as [[a|exc] m']
  end; simpl; rewrite ?objects_val; reflexivity.

Lemma app_topics_get_topics (request : Request) (n : Z) (w : world) :
  query_int request "num_topics" = Some n ->
  app topics_get_topics request w = answered request (GetTopics n) w.
Proof. answered_by get_topics_run. Qed.

Lemma app_documents_search_by_topic (request : Request) (t n : Z) (w : world) :
  query_int request "topic_num" = Some t ->
  query_int request "num_docs" = Some n ->
  app documents_search_by_topic request w
  = answered request (SearchDocumentsByTopic t n) w.
Proof. answered_by search_documents_by_topic_run. Qed.

Lemma app_documents_search_by_document (request : Request) (d n : Z) (w : world) :
  query_int request "doc_num" = Some d ->
  query_int request "num_docs" = Some n ->
  app documents_search_by_document request w
  = answered request (SearchDocumentsByDocument d n) w.
Proof. answered_by search_documents_by_document_run. Qed.

Lemma app_topics_search (request : Request) (ks : KeywordSearchTopic) (w : world) :
  body_param request KeywordSearchTopic_validate = Some ks ->
  app topics_search request w
  = answered request
      (SearchTopics (keywords (KeywordSearchTopic_base ks)) (num_topics ks)
         (keywords_neg (KeywordSearchTopic_base ks))) w.
Proof. answered_by search_topics_by_keywords_run. Qed.

Lemma app_documents_search_by_keyword (request : Request) (ks : KeywordSearchDocument)
  (w : world) :
  body_param request KeywordSearchDocument_validate = Some ks ->
  app documents_search_by_keyword request w
  = answered request
      (SearchDocumentsByKeyword (keywords (KeywordSearchDocument_base ks)) (num_docs ks)
         (keywords_neg (KeywordSearchDocument_base ks))) w.
Proof. answered_by search_documents_by_keywords_run. Qed.

Lemma app_words_find_similar (request : Request) (ks : KeywordSearchWord) (w : world) :
  body_param request KeywordSearchWord_validate = Some ks ->
  app words_find_similar request w
  = answered request
      (SimilarWords (keywords (KeywordSearchWord_base ks)) (num_words ks)
         (keywords_neg (KeywordSearchWord_base ks))) w.
Proof. answered_by find_similar_words_run. Qed.

End Routes.

(** ** Topics and their rows *)






(** ** Errors *)

(** The answer to a request whose model call raised. *)
Lemma answered_raise {P : Pydantic} {T : Top2Vec.Model} (request : Request)
  (c : method_call)
  (w : world) (exc : exception) (m' : Top2Vec.state) :
  invoke c (top2vec w) = (Raise exc, m') ->
  answered request c w = (exception_response request exc, called c (Raise exc) m' w).
Proof. intros H. unfold answered. rewrite H. reflexivity. Qed.

(** C4: a [topic_num] that [search_documents_by_topic] rejects with a
    [ValueError], and a [doc_num] that [search_documents_by_document] rejects
    with a [ValueError], are answered with status 404. *)
Theorem rejected_number_is_404 {P : Pydantic} {T : Top2Vec.Model} :
  (forall request topic_num num_docs w text m',
     query_int request "topic_num" = Some topic_num ->
     query_int request "num_docs" = Some num_docs ->
     Top2Vec.search_documents_by_topic topic_num num_docs (top2vec w)
     = (Raise (ValueError text), m') ->
     status_code (fst (app documents_search_by_topic request w)) = 404)
  /\ (forall request doc_num num_docs w text m',
        query_int request "doc_num" = Some doc_num ->
        query_int request "num_docs" = Some num_docs ->
        Top2Vec.search_documents_by_document doc_num num_docs (top2vec w)
        = (Raise (ValueError text), m') ->
        status_code (fst (app documents_search_by_document request w)) = 404).
Proof.
  split; intros request n k w text m' Hn Hk Hcall.
  - rewrite (app_documents_search_by_topic _ _ _ _ Hn Hk).
    rewrite (answered_raise _ _ _ (ValueError text) m'); [reflexivity|].
    unfold invoke. rewrite Hcall. reflexivity.
  - rewrite (app_documents_search_by_document _ _ _ _ Hn Hk).
    rewrite (answered_raise _ _ _ (ValueError text) m'); [reflexivity|].
    unfold invoke. rewrite Hcall. reflexivity.
Qed.

(** The sample model has two topics: topic 7 is answered with 404. *)
Lemma rejected_number_is_404_sample :
  status_code
    (fst (app (P := strict) (T := sample)
            documents_search_by_topic documents_of_topic_7 sample_world)) = 404.
Proof.
  apply (proj1 (rejected_number_is_404 (P := strict) (T := sample))
           documents_of_topic_7 7 1 sample_world "Invalid topic number." newsgroups).
  - vm_compute; reflexivity.
  - vm_compute; reflexivity.
  - reflexivity.
Defined.

Lemma app_inv_last {A : Type} (l : list A) (x y : A) : l ++ [x] = l ++ [y] -> x = y.
Proof. intros H. apply app_inv_head in H. congruence. Qed.

Lemma app_last_ne {A : Type} (l : list A) (x : A) : l <> l ++ [x].
Proof.
  intros H. apply (f_equal length) in H. rewrite length_app in H. simpl in H. lia.
Qed.




(** ** The model and the process state across requests *)

Section Frame.

Context {P : Pydantic} {T : Top2Vec.Model}.

Lemma loads_app (trace trace' : list event) :
  loads (trace ++ trace') = (loads trace + loads trace')%nat.
Proof. unfold loads. rewrite List.filter_app, length_app. reflexivity. Qed.

(** What one request leaves behind: at most one more call in the trace, no
    load, the model as the call left it, and identities only ever used up. *)
Lemma app_world (ep : endpoint) (request : Request) (w : world) :
  let w' := snd (app ep request w) in
  (calls w' = calls w
   \/ exists c, calls w' = calls w ++ [Called c (fst (invoke c (top2vec w)))]
                /\ top2vec w' = snd (invoke c (top2vec w)))
  /\ (calls w' = calls w -> w' = w)
  /\ (next_obj w <= next_obj w')%nat.
Proof.
  destruct (app_run ep request w) as [[_ ->] | [c ->]]; simpl.
  - split; [left; reflexivity | split; [reflexivity | lia]].
  - unfold answered. destruct (invoke c (top2vec w)) as [[rv|exc] m'] eqn:Hi; simpl.
    + split; [right; exists c; rewrite Hi; split; reflexivity|].
      split; [intros H; destruct (app_last_ne _ _ (eq_sym H)) | lia].
    + split; [right; exists c; rewrite Hi; split; reflexivity|].
      split; [intros H; destruct (app_last_ne _ _ (eq_sym H)) | lia].
Qed.

Lemma app_read_only (ep : endpoint) (request : Request) (w : world) :
  Top2Vec.read_only T -> top2vec (snd (app ep request w)) = top2vec w.
Proof.
  intros Hro. destruct (app_world ep request w) as ([H | (c & _ & H)] & Hsame & _).
  - rewrite (Hsame H). reflexivity.
  - rewrite H. apply invoke_read_only, Hro.
Qed.

Lemma app_loads (ep : endpoint) (request : Request) (w : world) :
  loads (calls (snd (app ep request w))) = loads (calls w).
Proof.
  destruct (app_world ep request w) as ([H | (c & H & _)] & _ & _); rewrite H.
  - reflexivity.
  - rewrite loads_app. unfold loads; simpl. lia.
Qed.

Lemma app_calls_prefix (ep : endpoint) (request : Request) (w : world) :
  exists trace, calls (snd (app ep request w)) = calls w ++ trace.
Proof.
  destruct (app_world ep request w) as ([H | (c & H & _)] & _ & _); rewrite H.
  - exists []. rewrite app_nil_r. reflexivity.
  - eauto.
Qed.

(** A run of requests: the model is never reloaded, and a read-only model is
    at the end what it was at the start. *)
Lemma serve_world (requests : list (endpoint * Request)) (w : world) :
  Top2Vec.read_only T ->
  let w' := snd (serve requests w) in
  top2vec w' = top2vec w
  /\ loads (calls w') = loads (calls w)
  /\ (exists trace, calls w' = calls w ++ trace)
  /\ length (fst (serve requests w)) = length requests.
Proof.
  intros Hro. revert w; induction requests as [|[ep request] requests IH]; intros w; simpl.
  - repeat split; auto. exists []. rewrite app_nil_r. reflexivity.
  - pose proof (app_read_only ep request w Hro) as Hm.
    pose proof (app_loads ep request w) as Hl.
    destruct (app_calls_prefix ep request w) as [t1 Ht1].
    destruct (app ep request w) as [response w1]; simpl in Hm, Hl, Ht1.
    specialize (IH w1). destruct (serve requests w1) as [responses w2]; simpl in IH |- *.
    destruct IH as (IHm & IHl & [t2 IHt] & IHn).
    repeat split.
    + congruence.
    + congruence.
    + exists (t1 ++ t2). rewrite IHt, Ht1, app_assoc. reflexivity.
    + congruence.
Qed.

(** The objects of a returned value are those allocated while handling the
    request: each identity was free before, and is used for one object. *)
Lemma dispatch_fresh (ep : endpoint) (request : Request) (handler : App result)
  (w w' : world) (r : result) :
  dispatch ep request = Some handler ->
  handler w = (Return r, w') ->
  object_ids r = seq (next_obj w) (next_obj w' - next_obj w)
  /\ (next_obj w <= next_obj w')%nat.
Proof.
  intros Hd Hrun. destruct (dispatch_run _ _ _ Hd) as [c Hc].
  rewrite Hc in Hrun. unfold handled in Hrun.
  destruct (invoke c (top2vec w)) as [[rv|exc] m']; [|discriminate].
  injection Hrun as <- <-. rewrite object_ids_fresh_result. simpl.
  split; [f_equal; lia | lia].
Qed.

End Frame.

Lemma sample_read_only : Top2Vec.read_only sample.
Proof.
  split; simpl; intros;
    unfold sample_topics, sample_documents;
    repeat case_match; simplify_eq; reflexivity.
Qed.

(** C7: the model is loaded once, when the process starts, and no request
    changes it.  Started with a model whose query methods are read-only, the
    process shows after any run of requests one load in its trace, the first
    entry, and the model it loaded; every single request leaves the model as
    it found it; and the objects a handler returns are constructed for that
    response: their identities were unused before the request, are pairwise
    distinct, and are never handed out again. *)
Theorem model_loaded_once_and_read_only {P : Pydantic} {T : Top2Vec.Model} (w0 : world) :
  Top2Vec.read_only T ->
  startup = Return w0 ->
  (calls w0 = [Loaded model_path] /\ Top2Vec.load model_path = Return (top2vec w0))
  /\ (forall requests,
        let w := snd (serve requests w0) in
        loads (calls w) = 1%nat
        /\ head (calls w) = Some (Loaded model_path)
        /\ top2vec w = top2vec w0)
  /\ (forall ep request w, top2vec (snd (app ep request w)) = top2vec w)
  /\ (forall ep request handler w w' r,
        dispatch ep request = Some handler ->
        handler w = (Return r, w') ->
        NoDup (object_ids r)
        /\ Forall (fun i => (next_obj w <= i < next_obj w')%nat) (object_ids r))
  /\ (forall ep request w, (next_obj w <= next_obj (snd (app ep request w)))%nat).
Proof.
  intros Hro Hstart. unfold startup in Hstart.
  destruct (Top2Vec.load model_path) as [m|exc] eqn:Hload; [|discriminate].
  injection Hstart as <-. simpl.
  split; [split; reflexivity|]. split; [|split; [|split]].
  - intros requests.
    destruct (serve_world requests
                {| top2vec := m; calls := [Loaded model_path]; next_obj := 0 |} Hro)
      as (Hm & Hl & [trace Ht] & _).
    simpl in Hm, Hl, Ht. rewrite Hl, Ht, Hm. repeat split.
  - intros ep request w. apply app_read_only, Hro.
  - intros ep request handler w w' r Hd Hrun.
    destruct (dispatch_fresh _ _ _ _ _ _ Hd Hrun) as [Hids Hle]. rewrite Hids. split.
    + apply NoDup_ListNoDup, List.seq_NoDup.
    + apply Forall_forall. intros i Hi.
      apply list_elem_of_In, List.in_seq in Hi. lia.
  - intros ep request w. apply app_world.
Qed.

(** Two requests served by the sample model, the second of them rejected. *)
Lemma model_loaded_once_and_read_only_sample :
  let w := snd (serve (P := strict)
                  [(topics_get_topics, get_one_topic);
                   (documents_search_by_topic, documents_of_topic_7)] sample_world) in
  loads (calls w) = 1%nat
  /\ head (calls w) = Some (Loaded model_path)
  /\ top2vec w = top2vec sample_world.
Proof.
  exact (proj1 (proj2 (model_loaded_once_and_read_only (P := strict) (T := sample)
                         sample_world sample_read_only eq_refl))
           [(topics_get_topics, get_one_topic);
            (documents_search_by_topic, documents_of_topic_7)]).
Defined.

(** C8: a request either succeeds fully or fails fully.  Either its model
    call returned and the answer is 200 with the complete zipped response;
    or the answer is one error response that carries no result, for one of
    three reasons: the request did not validate, and nothing happened; its
    one model call raised, and no response object was constructed; or its
    one model call returned a value that cannot be rendered, and the answer
    is [value_error_handler]'s, with none of the results in it.  In every
    case a read-only model is left unchanged and the trace shows at most one
    call: nothing is retried. *)
Theorem succeeds_fully_or_fails_fully {P : Pydantic} {T : Top2Vec.Model}
  (ep : endpoint) (request : Request) (w : world) :
  Top2Vec.read_only T ->
  let (response, w') := app ep request w in
  top2vec w' = top2vec w
  /\ ((exists c rv,
         fst (invoke c (top2vec w)) = Return rv
         /\ calls w' = calls w ++ [Called c (Return rv)]
         /\ response = JSONResponse HTTP_200_OK (complete rv))
      \/ (status_code response <> HTTP_200_OK
          /\ no_results (body response)
          /\ (w' = w
              \/ (exists c exc,
                     fst (invoke c (top2vec w)) = Raise exc
                     /\ calls w' = calls w ++ [Called c (Raise exc)]
                     /\ next_obj w' = next_obj w)
              \/ (exists c rv text,
                     fst (invoke c (top2vec w)) = Return rv
                     /\ calls w' = calls w ++ [Called c (Return rv)]
                     /\ render (complete rv) = Raise (ValueError text)
                     /\ response = value_error_handler request (ValueError text))))).
Proof.
  intros Hro. pose proof (app_read_only ep request w Hro) as Hm.
  destruct (app_run ep request w) as [[_ Happ] | [c Happ]];
    rewrite Happ in Hm |- *; clear Happ.
  - split; [reflexivity|]. right. repeat split; [discriminate | left; reflexivity].
  - unfold answered in Hm |- *.
    destruct (invoke c (top2vec w)) as [[rv|exc] m'] eqn:Hi; simpl in Hm |- *.
    + split; [exact Hm|].
      destruct (rendered_cases request (complete rv)) as [[Hr ->] | (t & Hr & ->)].
      * left. exists c, rv. rewrite Hi. repeat split.
      * right. repeat split; [discriminate|].
        right; right. exists c, rv, t. rewrite Hi. repeat split. exact Hr.
    + split; [exact Hm|]. right.
      unfold exception_response, value_error_handler, internal_server_error.
      destruct exc; simpl;
        (repeat split; [discriminate | right; left; eexists _, _; rewrite Hi; eauto]).
Qed.

(** A rejected topic number: an error response, and nothing changed. *)
Lemma succeeds_fully_or_fails_fully_sample :
  let (response, w') :=
    app (P := strict) documents_search_by_topic documents_of_topic_7 sample_world in
  top2vec w' = top2vec sample_world
  /\ ((exists c rv,
         fst (invoke c (top2vec sample_world)) = Return rv
         /\ calls w' = calls sample_world ++ [Called c (Return rv)]
         /\ response = JSONResponse HTTP_200_OK (complete rv))
      \/ (status_code response <> HTTP_200_OK
          /\ no_results (body response)
          /\ (w' = sample_world
              \/ (exists c exc,
                     fst (invoke c (top2vec sample_world)) = Raise exc
                     /\ calls w' = calls sample_world ++ [Called c (Raise exc)]
                     /\ next_obj w' = next_obj sample_world)
              \/ (exists c rv text,
                     fst (invoke c (top2vec sample_world)) = Return rv
                     /\ calls w' = calls sample_world ++ [Called c (Return rv)]
                     /\ render (P := strict) (complete rv) = Raise (ValueError text)
                     /\ response
                        = value_error_handler documents_of_topic_7 (ValueError text))))).
Proof.
  exact (succeeds_fully_or_fails_fully (P := strict) (T := sample)
           documents_search_by_topic documents_of_topic_7 sample_world sample_read_only).
Defined.


(** ** Negative keywords *)

Section Negatives.

Context {P : Pydantic}.

Lemma KeywordSearch_validate_needs_negatives (values : gmap string json) :
  values !! "keywords_neg" = None -> KeywordSearch_validate values = None.
Proof.
  intros H. unfold KeywordSearch_validate, required. rewrite H. simpl.
  destruct (values !! "keywords") as [v|]; simpl; [|reflexivity].
  destruct (list_str_validator v); reflexivity.
Qed.

Lemma body_param_needs_negatives {A : Type} (request : Request)
  (validate : gmap string json -> option A) :
  (forall values, values !! "keywords_neg" = None -> validate values = None) ->
  (forall values, json_body request = Some values -> values !! "keywords_neg" = None) ->
  body_param request validate = None.
Proof.
  intros Hv Hb. unfold body_param.
  destruct (json_body request) as [values|]; simpl; auto.
Qed.

Lemma validate_needs_negatives (values : gmap string json) :
  values !! "keywords_neg" = None ->
  KeywordSearchDocument_validate values = None
  /\ KeywordSearchTopic_validate values = None
  /\ KeywordSearchWord_validate values = None.
Proof.
  intros H.
  unfold KeywordSearchDocument_validate, KeywordSearchTopic_validate,
    KeywordSearchWord_validate.
  rewrite (KeywordSearch_validate_needs_negatives _ H). auto.
Qed.

Context {T : Top2Vec.Model}.

(** A keyword search whose body lacks [keywords_neg] is turned away before
    the handler runs. *)
Lemma app_needs_negatives (ep : endpoint) (request : Request) (w : world) :
  takes_keyword_search ep = true ->
  (forall values, json_body request = Some values -> values !! "keywords_neg" = None) ->
  app ep request w = (request_validation_error, w).
Proof.
  intros Hep Hb. unfold app, dispatch.
  destruct ep; try discriminate.
  - rewrite body_param_needs_negatives; [reflexivity | | assumption].
    intros values H. apply (validate_needs_negatives values H).
  - rewrite body_param_needs_negatives; [reflexivity | | assumption].
    intros values H. apply (validate_needs_negatives values H).
  - rewrite body_param_needs_negatives; [reflexivity | | assumption].
    intros values H. apply (validate_needs_negatives values H).
Qed.

Lemma without_member_lacks (name : string) (request : Request) (values : gmap string json) :
  json_body (without_member name request) = Some values -> values !! name = None.
Proof.
  unfold without_member; simpl. destruct (json_body request) as [values'|]; simpl.
  - intros [= <-]. apply lookup_delete_eq.
  - discriminate.
Qed.

End Negatives.

(** C10: [keywords_neg] is a required member of every schema of the
    [KeywordSearch] family.  An object without it fails the validation of
    each of the four schemas; and a request to a keyword-search route whose
    body lacks it is answered by the framework's validation error, the
    process state untouched: no model call is made, with an empty list of
    negative keywords or otherwise. *)
Theorem keywords_neg_is_required {P : Pydantic} {T : Top2Vec.Model} :
  (forall values : gmap string json,
     values !! "keywords_neg" = None ->
     KeywordSearch_validate values = None
     /\ KeywordSearchDocument_validate values = None
     /\ KeywordSearchTopic_validate values = None
     /\ KeywordSearchWord_validate values = None)
  /\ (forall ep request w,
        takes_keyword_search ep = true ->
        (forall values, json_body request = Some values -> values !! "keywords_neg" = None) ->
        app ep request w = (request_validation_error, w)
        /\ dispatch ep request = None).
Proof.
  split.
  - intros values H. split.
    + apply KeywordSearch_validate_needs_negatives, H.
    + apply validate_needs_negatives, H.
  - intros ep request w Hep Hb. split.
    + apply app_needs_negatives; assumption.
    + pose proof (app_needs_negatives ep request w Hep Hb) as Happ.
      unfold app in Happ. destruct (dispatch ep request) as [handler|]; [|reflexivity].
      destruct (handler w) as [[r|exc] w']; injection Happ as Hresp _.
      * destruct (rendered_cases request (serialize r)) as [[_ Hr] | (t & _ & Hr)];
          rewrite Hr in Hresp; discriminate Hresp.
      * unfold exception_response, value_error_handler in Hresp.
        destruct (is_ValueError exc); discriminate.
Qed.

(** The sample topic search without its [keywords_neg] member. *)
Lemma keywords_neg_is_required_sample :
  app (P := strict) (T := sample)
    topics_search (search_without_negatives "num_topics") sample_world
  = (request_validation_error, sample_world)
  /\ dispatch (P := strict) (T := sample)
       topics_search (search_without_negatives "num_topics") = None.
Proof.
  apply (proj2 (keywords_neg_is_required (P := strict) (T := sample))).
  - reflexivity.
  - intros values [= <-]. vm_compute. reflexivity.
Defined.

(** C6, as amended: on each keyword-search route, a request whose
    [keywords_neg] is the empty list is answered from the one model call made
    with the empty list as its negative keywords; the same request with the
    member left out is turned away by validation, and no model call is made. *)
Theorem empty_negatives_are_passed_on {P : Pydantic} {T : Top2Vec.Model} :
  (forall request ks w,
     body_param request KeywordSearchTopic_validate = Some ks ->
     keywords_neg (KeywordSearchTopic_base ks) = [] ->
     app topics_search request w
     = answered request
         (SearchTopics (keywords (KeywordSearchTopic_base ks)) (num_topics ks) []) w
     /\ app topics_search (without_member "keywords_neg" request) w
        = (request_validation_error, w))
  /\ (forall request ks w,
        body_param request KeywordSearchDocument_validate = Some ks ->
        keywords_neg (KeywordSearchDocument_base ks) = [] ->
        app documents_search_by_keyword request w
        = answered request
            (SearchDocumentsByKeyword
               (keywords (KeywordSearchDocument_base ks)) (num_docs ks) []) w
        /\ app documents_search_by_keyword (without_member "keywords_neg" request) w
           = (request_validation_error, w))
  /\ (forall request ks w,
        body_param request KeywordSearchWord_validate = Some ks ->
        keywords_neg (KeywordSearchWord_base ks) = [] ->
        app words_find_similar request w
        = answered request
            (SimilarWords (keywords (KeywordSearchWord_base ks)) (num_words ks) []) w
        /\ app words_find_similar (without_member "keywords_neg" request) w
           = (request_validation_error, w)).
Proof.
  repeat split; intros.
  - rewrite (app_topics_search _ _ _ H), H0. reflexivity.
  - apply app_needs_negatives; [reflexivity | apply without_member_lacks].
  - rewrite (app_documents_search_by_keyword _ _ _ H), H0. reflexivity.
  - apply app_needs_negatives; [reflexivity | apply without_member_lacks].
  - rewrite (app_words_find_similar _ _ _ H), H0. reflexivity.
  - apply app_needs_negatives; [reflexivity | apply without_member_lacks].
Qed.

(** The sample topic search, with [[]] for its negative keywords. *)
Lemma empty_negatives_are_passed_on_sample :
  app (P := strict) (T := sample)
    topics_search (search_with_empty_negatives "num_topics") sample_world
  = answered (search_with_empty_negatives "num_topics")
      (SearchTopics ["space"] 1 []) sample_world
  /\ app (P := strict) (T := sample) topics_search
       (without_member "keywords_neg" (search_with_empty_negatives "num_topics"))
       sample_world
     = (request_validation_error, sample_world).
Proof.
  apply (proj1 (empty_negatives_are_passed_on (P := strict) (T := sample))
           (search_with_empty_negatives "num_topics")
           {| KeywordSearchTopic_base := {| keywords := ["space"]; keywords_neg := [] |};
              num_topics := 1 |}
           sample_world).
  - vm_compute. reflexivity.
  - reflexivity.
Defined.

(** C6, as stated, fails: on each keyword-search route the sample request
    with [[]] for its negative keywords and the same request without the
    member are answered differently (200 with results, 422). *)
Lemma empty_negatives_are_not_omitted_negatives :
  fst (app (P := strict) (T := sample)
         topics_search (search_with_empty_negatives "num_topics") sample_world)
  <> fst (app (P := strict) (T := sample)
            topics_search (search_without_negatives "num_topics") sample_world)
  /\ fst (app (P := strict) (T := sample) documents_search_by_keyword
            (search_with_empty_negatives "num_docs") sample_world)
     <> fst (app (P := strict) (T := sample) documents_search_by_keyword
               (search_without_negatives "num_docs") sample_world)
  /\ fst (app (P := strict) (T := sample) words_find_similar
            (search_with_empty_negatives "num_words") sample_world)
     <> fst (app (P := strict) (T := sample) words_find_similar
               (search_without_negatives "num_words") sample_world).
Proof.
  repeat split; intros H; vm_compute in H; discriminate.
Qed.

(** * Further properties of the handlers and of the application *)

(** ** Rows, one by one *)

Lemma map_lookup {A B : Type} (f : A -> B) (l : list A) (i : nat) :
  map f l !! i = f <$> (l !! i).
Proof. revert i; induction l as [|x l IH]; intros [|i]; simpl; auto. Qed.

Lemma objects_lookup_val {A : Type} (start : nat) (vs : list A) (i : nat) :
  obj_val <$> (objects start vs !! i) = vs !! i.
Proof. rewrite <- map_lookup, objects_val. reflexivity. Qed.

Lemma zip4_lookup {A B C D : Type}
  (xs : list A) (ys : list B) (zs : list C) (us : list D)
  (i : nat) (x : A) (y : B) (z : C) (u : D) :
  zip4 xs ys zs us !! i = Some (x, y, z, u)
  <-> xs !! i = Some x /\ ys !! i = Some y /\ zs !! i = Some z /\ us !! i = Some u.
Proof.
  revert ys zs us i; induction xs as [|x' xs IH]; intros [|y' ys] [|z' zs] [|u' us] [|i];
    simpl; try (split; [discriminate | intros (? & ? & ? & ?); discriminate]).
  - split; [intros [= -> -> -> ->]; auto
           | intros ([= ->] & [= ->] & [= ->] & [= ->]); auto].
  - apply IH.
Qed.

Lemma zip_lookup {A B : Type} (xs : list A) (ys : list B) (i : nat) (x : A) (y : B) :
  zip xs ys !! i = Some (x, y) <-> xs !! i = Some x /\ ys !! i = Some y.
Proof.
  revert ys i; induction xs as [|x' xs IH]; intros [|y' ys] [|i];
    simpl; try (split; [discriminate | intros (? & ?); discriminate]).
  - split; [intros [= -> ->]; auto | intros ([= ->] & [= ->]); auto].
  - apply IH.
Qed.

(** X2: the i-th topic returned by [get_topics], and the i-th result
    returned by [search_topics_by_keywords], is made of the i-th element of
    each sequence the model returned, each in the field of its name; nothing
    is reordered, merged or dropped before the shortest sequence ends. *)
Theorem topics_carry_their_rows {T : Top2Vec.Model} :
  (forall num_topics w tw ws tn m',
     Top2Vec.get_topics num_topics (top2vec w) = (Return (tw, ws, tn), m') ->
     returns (get_topics num_topics w)
       (fun l => forall i words scores num,
          obj_val <$> (l !! i)
          = Some {| topic_num := num; topic_words := words; word_scores := scores |}
          <-> tw !! i = Some words /\ ws !! i = Some scores /\ tn !! i = Some num))
  /\ (forall ks w tw ws ts tn m',
        Top2Vec.search_topics (keywords (KeywordSearchTopic_base ks)) (num_topics ks)
          (keywords_neg (KeywordSearchTopic_base ks)) (top2vec w)
        = (Return (tw, ws, ts, tn), m') ->
        returns (search_topics_by_keywords ks w)
          (fun l => forall i words scores topic_score num,
             obj_val <$> (l !! i)
             = Some {| topic := {| topic_num := num; topic_words := words;
                                   word_scores := scores |};
                       topic_score := topic_score |}
             <-> tw !! i = Some words /\ ws !! i = Some scores
                 /\ ts !! i = Some topic_score /\ tn !! i = Some num)).
Proof.
  split; intros.
  - rewrite get_topics_run, H. apply delegate_returns. intros i words scores num.
    rewrite objects_lookup_val. unfold zipped_Topics. rewrite map_lookup.
    rewrite <- zip3_lookup.
    destruct (zip3 tw ws tn !! i) as [[[a b] c]|]; simpl;
      split; intros [=]; subst; reflexivity.
  - rewrite search_topics_by_keywords_run; simpl. rewrite H. apply delegate_returns.
    intros i words scores topic_score num.
    rewrite objects_lookup_val. unfold zipped_TopicResults. rewrite map_lookup.
    rewrite <- zip4_lookup.
    destruct (zip4 tw ws ts tn !! i) as [[[[a b] c] d]|]; simpl;
      split; intros [=]; subst; reflexivity.
Qed.

(** The second topic of the sample model, as [get_topics 2] returns it. *)
Lemma topics_carry_their_rows_sample :
  returns (get_topics 2 sample_world)
    (fun l => forall i words scores num,
       obj_val <$> (l !! i)
       = Some {| topic_num := num; topic_words := words; word_scores := scores |}
       <-> [["space"; "nasa"]; ["car"; "engine"]] !! i = Some words
           /\ [[0.75; 0.5]; [0.25; 0.125]]%float !! i = Some scores
           /\ [0; 1] !! i = Some num).
Proof.
  apply (proj1 (topics_carry_their_rows (T := sample)) 2 sample_world
           [["space"; "nasa"]; ["car"; "engine"]]
           [[0.75; 0.5]; [0.25; 0.125]]%float [0; 1] newsgroups).
  reflexivity.
Defined.

(** X3: the i-th document returned by each of the three document handlers
    has the i-th text as [content], the i-th score as [score] and the i-th
    number as [doc_num]; the i-th result of [find_similar_words] pairs the
    i-th word with the i-th score. *)
Theorem documents_and_words_carry_their_rows {T : Top2Vec.Model} :
  (forall topic_num num_docs w docs scores nums m',
     Top2Vec.search_documents_by_topic topic_num num_docs (top2vec w)
     = (Return (docs, scores, nums), m') ->
     returns (search_documents_by_topic topic_num num_docs w)
       (fun l => forall i doc s num,
          obj_val <$> (l !! i) = Some {| content := doc; score := s; doc_num := num |}
          <-> docs !! i = Some doc /\ scores !! i = Some s /\ nums !! i = Some num))
  /\ (forall ks w docs scores nums m',
        Top2Vec.search_documents_by_keyword (keywords (KeywordSearchDocument_base ks))
          (num_docs ks) (keywords_neg (KeywordSearchDocument_base ks)) (top2vec w)
        = (Return (docs, scores, nums), m') ->
        returns (search_documents_by_keywords ks w)
          (fun l => forall i doc s num,
             obj_val <$> (l !! i) = Some {| content := doc; score := s; doc_num := num |}
             <-> docs !! i = Some doc /\ scores !! i = Some s /\ nums !! i = Some num))
  /\ (forall doc_num num_docs w docs scores nums m',
        Top2Vec.search_documents_by_document doc_num num_docs (top2vec w)
        = (Return (docs, scores, nums), m') ->
        returns (search_documents_by_document doc_num num_docs w)
          (fun l => forall i doc s num,
             obj_val <$> (l !! i) = Some {| content := doc; score := s; doc_num := num |}
             <-> docs !! i = Some doc /\ scores !! i = Some s /\ nums !! i = Some num))
  /\ (forall ks w words scores m',
        Top2Vec.similar_words (keywords (KeywordSearchWord_base ks)) (num_words ks)
          (keywords_neg (KeywordSearchWord_base ks)) (top2vec w)
        = (Return (words, scores), m') ->
        returns (find_similar_words ks w)
          (fun l => forall i wd s,
             obj_val <$> (l !! i) = Some {| word := wd; word_score := s |}
             <-> words !! i = Some wd /\ scores !! i = Some s)).
Proof.
  assert (Hdoc : forall (docs : list string) (scores : list float) (nums : list Z)
                    start i doc s num,
             obj_val <$> (objects start (zipped_Documents (docs, scores, nums)) !! i)
             = Some {| content := doc; score := s; doc_num := num |}
             <-> docs !! i = Some doc /\ scores !! i = Some s /\ nums !! i = Some num).
  { intros docs scores nums start i doc s num.
    rewrite objects_lookup_val. unfold zipped_Documents. rewrite map_lookup.
    rewrite <- zip3_lookup.
    destruct (zip3 docs scores nums !! i) as [[[a b] c]|]; simpl;
      split; intros [=]; subst; reflexivity. }
  repeat split; intros.
  - rewrite search_documents_by_topic_run, H. apply delegate_returns. intros. apply Hdoc.
  - rewrite search_documents_by_keywords_run; simpl. rewrite H.
    apply delegate_returns. intros. apply Hdoc.
  - rewrite search_documents_by_document_run, H. apply delegate_returns. intros. apply Hdoc.
  - rewrite find_similar_words_run; simpl. rewrite H. apply delegate_returns.
    intros i wd s. rewrite objects_lookup_val. unfold zipped_WordResults.
    rewrite map_lookup. rewrite <- zip_lookup.
    destruct (zip words scores !! i) as [[a b]|]; simpl;
      split; intros [=]; subst; reflexivity.
Qed.

(** Three texts and two scores: the documents at 0 and 1, none at 2. *)
Lemma documents_and_words_carry_their_rows_ragged :
  returns (search_documents_by_topic 0 3 ragged_world)
    (fun l => forall i doc s num,
       obj_val <$> (l !! i) = Some {| content := doc; score := s; doc_num := num |}
       <-> ["launch"; "orbit"; "wheel"] !! i = Some doc
           /\ [0.5; 0.25]%float !! i = Some s
           /\ [0; 1; 2] !! i = Some num).
Proof.
  apply (proj1 (documents_and_words_carry_their_rows (T := ragged)) 0 3 ragged_world
           ["launch"; "orbit"; "wheel"] [0.5; 0.25]%float [0; 1; 2] tt).
  reflexivity.
Defined.

(** ** Validation, route by route *)

Section Validation.

Context {P : Pydantic} {T : Top2Vec.Model}.

(** The validation error is the answer exactly to the requests that do not
    validate: a request that reaches its handler is never answered with 422. *)
Lemma app_rejects_iff (ep : endpoint) (request : Request) (w : world) :
  status_code (fst (app ep request w)) = HTTP_422_UNPROCESSABLE_ENTITY
  <-> dispatch ep request = None.
Proof.
  unfold app. destruct (dispatch ep request) as [handler|].
  - destruct (handler w) as [[r|[text|cls text]] w']; simpl.
    + destruct (rendered_cases request (serialize r)) as [[_ ->] | (t & _ & ->)];
        (split; intros H; discriminate H).
    + split; intros H; discriminate H.
    + split; intros H; discriminate H.
  - split; reflexivity.
Qed.

Lemma app_rejected (ep : endpoint) (request : Request) (w : world) :
  dispatch ep request = None -> app ep request w = (request_validation_error, w).
Proof. intros H. unfold app. rewrite H. reflexivity. Qed.

Lemma query_int_None (request : Request) (name : string) :
  query_int request name = None
  <-> query_params request !! name = None
      \/ exists s, query_params request !! name = Some s
                   /\ int_validator (JString s) = None.
Proof.
  unfold query_int. destruct (query_params request !! name) as [s|]; simpl.
  - split; [intros H; right; eauto | intros [[=] | (s' & [= <-] & H)]; exact H].
  - split; auto.
Qed.

Lemma KeywordSearch_validate_None (values : gmap string json) :
  KeywordSearch_validate values = None
  <-> required values "keywords" list_str_validator = None
      \/ required values "keywords_neg" list_str_validator = None.
Proof.
  unfold KeywordSearch_validate.
  destruct (required values "keywords" list_str_validator);
    destruct (required values "keywords_neg" list_str_validator); simpl;
    (split; [intros H; try discriminate H; auto
            | intros [H|H]; try discriminate H; reflexivity]).
Qed.

Lemma body_param_None {A : Type} (request : Request)
  (validate : gmap string json -> option A) :
  body_param request validate = None
  <-> forall values, json_body request = Some values -> validate values = None.
Proof.
  unfold body_param. destruct (json_body request) as [values|]; simpl.
  - split; [intros H values' [= <-]; exact H | auto].
  - split; [intros _ values [=] | reflexivity].
Qed.

End Validation.

(** X4: the three routes that take their parameters from the query string
    answer with the validation error exactly when one of the parameters their
    handler declares is absent from the query string or is not accepted as an
    integer; the request is then turned away with the process state
    untouched. *)
Theorem query_parameters_are_required {P : Pydantic} {T : Top2Vec.Model}
  (request : Request) (w : world) :
  (status_code (fst (app topics_get_topics request w)) = HTTP_422_UNPROCESSABLE_ENTITY
   <-> query_int request "num_topics" = None)
  /\ (status_code (fst (app documents_search_by_topic request w))
      = HTTP_422_UNPROCESSABLE_ENTITY
      <-> query_int request "topic_num" = None \/ query_int request "num_docs" = None)
  /\ (status_code (fst (app documents_search_by_document request w))
      = HTTP_422_UNPROCESSABLE_ENTITY
      <-> query_int request "doc_num" = None \/ query_int request "num_docs" = None)
  /\ (forall name,
        query_int request name = None
        <-> query_params request !! name = None
            \/ exists s, query_params request !! name = Some s
                         /\ int_validator (JString s) = None)
  /\ (forall ep,
        status_code (fst (app ep request w)) = HTTP_422_UNPROCESSABLE_ENTITY ->
        app ep request w = (request_validation_error, w)).
Proof.
  split; [|split; [|split; [|split]]].
  - rewrite app_rejects_iff. unfold dispatch.
    destruct (query_int request "num_topics"); simpl; split; intros [=]; reflexivity.
  - rewrite app_rejects_iff. unfold dispatch.
    destruct (query_int request "topic_num"), (query_int request "num_docs"); simpl;
      split; auto; try discriminate; intros [[=]|[=]].
  - rewrite app_rejects_iff. unfold dispatch.
    destruct (query_int request "doc_num"), (query_int request "num_docs"); simpl;
      split; auto; try discriminate; intros [[=]|[=]].
  - intros name. apply query_int_None.
  - intros ep H. apply app_rejected, app_rejects_iff with (w := w), H.
Qed.

(** X5: the three keyword-search routes answer with the validation error
    exactly when the request has no JSON object for a body, or the object
    lacks an acceptable [keywords], [keywords_neg] or count member: every
    field of the [KeywordSearch] family is required. *)
Theorem keyword_search_members_are_required {P : Pydantic} {T : Top2Vec.Model}
  (request : Request) (w : world) :
  (status_code (fst (app topics_search request w)) = HTTP_422_UNPROCESSABLE_ENTITY
   <-> forall values, json_body request = Some values ->
       required values "keywords" list_str_validator = None
       \/ required values "keywords_neg" list_str_validator = None
       \/ required values "num_topics" int_validator = None)
  /\ (status_code (fst (app documents_search_by_keyword request w))
      = HTTP_422_UNPROCESSABLE_ENTITY
      <-> forall values, json_body request = Some values ->
          required values "keywords" list_str_validator = None
          \/ required values "keywords_neg" list_str_validator = None
          \/ required values "num_docs" int_validator = None)
  /\ (status_code (fst (app words_find_similar request w)) = HTTP_422_UNPROCESSABLE_ENTITY
      <-> forall values, json_body request = Some values ->
          required values "keywords" list_str_validator = None
          \/ required values "keywords_neg" list_str_validator = None
          \/ required values "num_words" int_validator = None).
Proof.
  assert (Hfield : forall (A : Type) (build : KeywordSearch -> Z -> A) values name,
             (base ← KeywordSearch_validate values;
              n ← required values name int_validator;
              Some (build base n)) = None
             <-> required values "keywords" list_str_validator = None
                 \/ required values "keywords_neg" list_str_validator = None
                 \/ required values name int_validator = None).
  { intros A build values name.
    pose proof (KeywordSearch_validate_None values) as Hks.
    destruct (KeywordSearch_validate values) as [base|]; simpl.
    - destruct (required values name int_validator); simpl.
      + split; [discriminate|]. intros [H|[H|[=]]].
        * destruct Hks as [_ Hks]. discriminate (Hks (or_introl H)).
        * destruct Hks as [_ Hks]. discriminate (Hks (or_intror H)).
      + split; auto.
    - split; [intros _|reflexivity].
      destruct Hks as [Hks _]. destruct (Hks eq_refl); auto. }
  split; [|split].
  - rewrite app_rejects_iff. unfold dispatch.
    destruct (body_param request KeywordSearchTopic_validate) as [ks|] eqn:Hb; simpl.
    + split; [discriminate|]. intros H.
      unfold body_param in Hb. destruct (json_body request) as [values|]; [|discriminate].
      simpl in Hb. specialize (H values eq_refl).
      apply (Hfield _ (fun b n => Build_KeywordSearchTopic b n)) in H.
      unfold KeywordSearchTopic_validate in Hb. congruence.
    + split; [intros _|reflexivity]. intros values Hv.
      apply (Hfield _ (fun b n => Build_KeywordSearchTopic b n)).
      apply body_param_None with (values := values) in Hb; assumption.
  - rewrite app_rejects_iff. unfold dispatch.
    destruct (body_param request KeywordSearchDocument_validate) as [ks|] eqn:Hb; simpl.
    + split; [discriminate|]. intros H.
      unfold body_param in Hb. destruct (json_body request) as [values|]; [|discriminate].
      simpl in Hb. specialize (H values eq_refl).
      apply (Hfield _ (fun b n => Build_KeywordSearchDocument b n)) in H.
      unfold KeywordSearchDocument_validate in Hb. congruence.
    + split; [intros _|reflexivity]. intros values Hv.
      apply (Hfield _ (fun b n => Build_KeywordSearchDocument b n)).
      apply body_param_None with (values := values) in Hb; assumption.
  - rewrite app_rejects_iff. unfold dispatch.
    destruct (body_param request KeywordSearchWord_validate) as [ks|] eqn:Hb; simpl.
    + split; [discriminate|]. intros H.
      unfold body_param in Hb. destruct (json_body request) as [values|]; [|discriminate].
      simpl in Hb. specialize (H values eq_refl).
      apply (Hfield _ (fun b n => Build_KeywordSearchWord b n)) in H.
      unfold KeywordSearchWord_validate in Hb. congruence.
    + split; [intros _|reflexivity]. intros values Hv.
      apply (Hfield _ (fun b n => Build_KeywordSearchWord b n)).
      apply body_param_None with (values := values) in Hb; assumption.
Qed.

(** X6: what a request carries reaches the model unchanged and in its place.
    The integers of the query string become the arguments of the model call
    in the order the handler declares them; of a keyword-search body, the
    validated [keywords] is the first argument, the count the second and
    [keywords_neg] the third. *)
Theorem request_values_are_forwarded {P : Pydantic} {T : Top2Vec.Model} :
  (forall request s n w,
     query_params request !! "num_topics" = Some s ->
     int_validator (JString s) = Some n ->
     app topics_get_topics request w = answered request (GetTopics n) w)
  /\ (forall request s1 s2 t n w,
        query_params request !! "topic_num" = Some s1 ->
        int_validator (JString s1) = Some t ->
        query_params request !! "num_docs" = Some s2 ->
        int_validator (JString s2) = Some n ->
        app documents_search_by_topic request w
        = answered request (SearchDocumentsByTopic t n) w)
  /\ (forall request s1 s2 d n w,
        query_params request !! "doc_num" = Some s1 ->
        int_validator (JString s1) = Some d ->
        query_params request !! "num_docs" = Some s2 ->
        int_validator (JString s2) = Some n ->
        app documents_search_by_document request w
        = answered request (SearchDocumentsByDocument d n) w)
  /\ (forall request values vk vn vc kw neg n w,
        json_body request = Some values ->
        values !! "keywords" = Some vk -> list_str_validator vk = Some kw ->
        values !! "keywords_neg" = Some vn -> list_str_validator vn = Some neg ->
        values !! "num_topics" = Some vc -> int_validator vc = Some n ->
        app topics_search request w = answered request (SearchTopics kw n neg) w)
  /\ (forall request values vk vn vc kw neg n w,
        json_body request = Some values ->
        values !! "keywords" = Some vk -> list_str_validator vk = Some kw ->
        values !! "keywords_neg" = Some vn -> list_str_validator vn = Some neg ->
        values !! "num_docs" = Some vc -> int_validator vc = Some n ->
        app documents_search_by_keyword request w
        = answered request (SearchDocumentsByKeyword kw n neg) w)
  /\ (forall request values vk vn vc kw neg n w,
        json_body request = Some values ->
        values !! "keywords" = Some vk -> list_str_validator vk = Some kw ->
        values !! "keywords_neg" = Some vn -> list_str_validator vn = Some neg ->
        values !! "num_words" = Some vc -> int_validator vc = Some n ->
        app words_find_similar request w = answered request (SimilarWords kw n neg) w).
Proof.
  assert (Hq : forall request name s n,
             query_params request !! name = Some s ->
             int_validator (JString s) = Some n -> query_int request name = Some n).
  { intros request name s n H1 H2. unfold query_int. rewrite H1. exact H2. }
  assert (Hks : forall values vk vn kw neg,
             values !! "keywords" = Some vk -> list_str_validator vk = Some kw ->
             values !! "keywords_neg" = Some vn -> list_str_validator vn = Some neg ->
             KeywordSearch_validate values
             = Some {| keywords := kw; keywords_neg := neg |}).
  { intros values vk vn kw neg H1 H2 H3 H4. unfold KeywordSearch_validate, required.
    rewrite H1; simpl. rewrite H2; simpl. rewrite H3; simpl. rewrite H4. reflexivity. }
  repeat split; intros.
  - apply app_topics_get_topics; eauto.
  - apply app_documents_search_by_topic; eauto.
  - apply app_documents_search_by_document; eauto.
  - rewrite (app_topics_search request
               {| KeywordSearchTopic_base := {| keywords := kw; keywords_neg := neg |};
                  num_topics := n |}); [reflexivity|].
    unfold body_param. rewrite H; simpl. unfold KeywordSearchTopic_validate.
    rewrite (Hks _ _ _ _ _ H0 H1 H2 H3); simpl. unfold required.
    rewrite H4; simpl. rewrite H5. reflexivity.
  - rewrite (app_documents_search_by_keyword request
               {| KeywordSearchDocument_base := {| keywords := kw; keywords_neg := neg |};
                  num_docs := n |}); [reflexivity|].
    unfold body_param. rewrite H; simpl. unfold KeywordSearchDocument_validate.
    rewrite (Hks _ _ _ _ _ H0 H1 H2 H3); simpl. unfold required.
    rewrite H4; simpl. rewrite H5. reflexivity.
  - rewrite (app_words_find_similar request
               {| KeywordSearchWord_base := {| keywords := kw; keywords_neg := neg |};
                  num_words := n |}); [reflexivity|].
    unfold body_param. rewrite H; simpl. unfold KeywordSearchWord_validate.
    rewrite (Hks _ _ _ _ _ H0 H1 H2 H3); simpl. unfold required.
    rewrite H4; simpl. rewrite H5. reflexivity.
Qed.

(** One document of topic 7 asked of the sample model: the model is called
    with 7 and 1, in this order. *)
Lemma request_values_are_forwarded_sample :
  app (P := strict) (T := sample) documents_search_by_topic documents_of_topic_7 sample_world
  = answered documents_of_topic_7 (SearchDocumentsByTopic 7 1) sample_world.
Proof.
  apply (proj1 (proj2 (request_values_are_forwarded (P := strict) (T := sample)))
           documents_of_topic_7 "7" "1" 7 1 sample_world).
  - vm_compute; reflexivity.
  - reflexivity.
  - vm_compute; reflexivity.
  - reflexivity.
Defined.

(** ** The route without parameters *)


(** ** Exceptions that are not [ValueError]s *)

(** X7: only [ValueError] is translated.  When the model call of a request
    raises an exception of another class, the answer is the framework's 500
    and not [value_error_handler]'s 404, it does not carry the exception's
    text, and no response object was constructed. *)
Theorem other_exceptions_are_not_translated {P : Pydantic} {T : Top2Vec.Model}
  (ep : endpoint) (request : Request) (w : world)
  (c : method_call) (class_name text : string) :
  calls (snd (app ep request w))
  = calls w ++ [Called c (Raise (OtherError class_name text))] ->
  fst (app ep request w) = internal_server_error
  /\ fst (app ep request w) <> value_error_handler request (OtherError class_name text)
  /\ next_obj (snd (app ep request w)) = next_obj w.
Proof.
  destruct (app_run ep request w) as [[_ ->] | [c' ->]]; simpl.
  - intros H. destruct (app_last_ne _ _ H).
  - unfold answered. destruct (invoke c' (top2vec w)) as [[rv|[text'|cls text']] m']; simpl;
      intros H; apply app_inv_last in H; try discriminate H.
    repeat split. discriminate.
Qed.

(** The broken model asked for its number of topics. *)
Lemma other_exceptions_are_not_translated_broken :
  fst (app (P := strict) (T := broken) topics_number get_one_topic broken_world)
  = internal_server_error
  /\ fst (app (P := strict) (T := broken) topics_number get_one_topic broken_world)
     <> value_error_handler get_one_topic (OtherError "RuntimeError" "no index")
  /\ next_obj (snd (app (P := strict) (T := broken) topics_number get_one_topic broken_world))
     = next_obj broken_world.
Proof.
  apply (other_exceptions_are_not_translated (P := strict) (T := broken)
           topics_number get_one_topic broken_world GetNumTopics "RuntimeError" "no index").
  reflexivity.
Defined.


(** A request for documents of a topic that names no topic. *)
Lemma query_parameters_are_required_sample :
  app (P := strict) (T := sample) documents_search_by_topic get_one_topic sample_world
  = (request_validation_error, sample_world).
Proof.
  apply (proj2 (proj2 (proj2 (proj2
           (query_parameters_are_required (P := strict) (T := sample)
              get_one_topic sample_world))))).
  apply (proj1 (proj2 (query_parameters_are_required (P := strict) (T := sample)
                         get_one_topic sample_world))).
  left. vm_compute. reflexivity.
Defined.

(** A topic search whose body has no [keywords_neg]. *)
Lemma keyword_search_members_are_required_sample :
  status_code
    (fst (app (P := strict) (T := sample)
            topics_search (search_without_negatives "num_topics") sample_world))
  = HTTP_422_UNPROCESSABLE_ENTITY.
Proof.
  apply (proj1 (keyword_search_members_are_required (P := strict) (T := sample)
                  (search_without_negatives "num_topics") sample_world)).
  intros values [= <-]. right; left. vm_compute. reflexivity.
Defined.

(** ** Runs of requests *)

Section Runs_of_requests.

Context {P : Pydantic} {T : Top2Vec.Model}.

(** The answer to a request depends on the process state only through the
    model. *)
Lemma app_response_of_model (ep : endpoint) (request : Request) (w1 w2 : world) :
  top2vec w1 = top2vec w2 -> fst (app ep request w1) = fst (app ep request w2).
Proof.
  intros Hm. unfold app. destruct (dispatch ep request) as [handler|] eqn:Hd; [|reflexivity].
  destruct (dispatch_run _ _ _ Hd) as [c Hc]. rewrite !Hc. unfold handled. rewrite Hm.
  destruct (invoke c (top2vec w2)) as [[rv|exc] m']; [|reflexivity].
  simpl. rewrite !serialize_fresh_result. reflexivity.
Qed.

(** A request that validates makes one call, any other none. *)
Lemma app_calls_length (ep : endpoint) (request : Request) (w : world) :
  length (calls (snd (app ep request w)))
  = (length (calls w) + if validates ep request then 1 else 0)%nat.
Proof.
  unfold validates, app. destruct (dispatch ep request) as [handler|] eqn:Hd.
  - destruct (dispatch_run _ _ _ Hd) as [c Hc]. rewrite Hc. unfold handled.
    destruct (invoke c (top2vec w)) as [[rv|exc] m']; simpl; rewrite length_app; reflexivity.
  - simpl. lia.
Qed.

End Runs_of_requests.

(** X8: the handlers keep nothing from one request to the next.  With a
    model whose query methods are read-only, each request of a run gets the
    answer it would get as the first request: no answer depends on the
    requests served before it. *)
Theorem answers_do_not_depend_on_history {P : Pydantic} {T : Top2Vec.Model}
  (requests : list (endpoint * Request)) (w : world) :
  Top2Vec.read_only T ->
  fst (serve requests w) = map (fun r => fst (app (fst r) (snd r) w)) requests.
Proof.
  intros Hro.
  assert (H : forall w', top2vec w' = top2vec w ->
              fst (serve requests w') = map (fun r => fst (app (fst r) (snd r) w)) requests).
  { induction requests as [|[ep request] requests IH]; intros w' Hm; simpl; [reflexivity|].
    pose proof (app_read_only ep request w' Hro) as Hm'.
    pose proof (app_response_of_model ep request w' w Hm) as Hr.
    destruct (app ep request w') as [response w1]; simpl in Hm', Hr.
    specialize (IH w1 (eq_trans Hm' Hm)).
    destruct (serve requests w1) as [responses w2]; simpl in IH |- *.
    rewrite Hr, IH. reflexivity. }
  apply H. reflexivity.
Qed.

(** The same request sent twice to the sample model, around a rejected one. *)
Lemma answers_do_not_depend_on_history_sample :
  fst (serve (P := strict) (T := sample)
         [(topics_get_topics, get_one_topic);
          (documents_search_by_topic, documents_of_topic_7);
          (topics_get_topics, get_one_topic)] sample_world)
  = map (fun r => fst (app (P := strict) (T := sample) (fst r) (snd r) sample_world))
      [(topics_get_topics, get_one_topic);
       (documents_search_by_topic, documents_of_topic_7);
       (topics_get_topics, get_one_topic)].
Proof.
  exact (answers_do_not_depend_on_history (P := strict) (T := sample)
           [(topics_get_topics, get_one_topic);
            (documents_search_by_topic, documents_of_topic_7);
            (topics_get_topics, get_one_topic)] sample_world sample_read_only).
Defined.

(** X9: over a run, the model is called once for each request that passes
    validation and not at all for the others, whatever the calls return or
    raise: nothing is cached, batched or retried, and every request is
    answered. *)
Theorem one_model_call_per_valid_request {P : Pydantic} {T : Top2Vec.Model}
  (requests : list (endpoint * Request)) (w : world) :
  length (calls (snd (serve requests w)))
  = (length (calls w)
     + length (List.filter (fun r => validates (fst r) (snd r)) requests))%nat
  /\ length (fst (serve requests w)) = length requests.
Proof.
  revert w; induction requests as [|[ep request] requests IH]; intros w; simpl.
  - split; [lia | reflexivity].
  - pose proof (app_calls_length ep request w) as Hl.
    destruct (app ep request w) as [response w1]; simpl in Hl.
    specialize (IH w1). destruct (serve requests w1) as [responses w2]; simpl in IH |- *.
    destruct IH as [IH1 IH2]. rewrite IH1, Hl, IH2.
    destruct (validates ep request); simpl; split; lia.
Qed.
